(** * Markdown tab-section tooling of [src/cli/scripts.py]

    A shallow embedding of the markdown routines of the script collection
    ([extract_sections_from_markdown_file], [reformat_file], the notebook
    conversion wrappers and their command-line entry points), and the
    properties of them that the specification states.

    Conventions of the embedding.
    - A Python [str] is a [string]; its characters are the code points
      below 256.  Character classes ([str.isspace], [str.lower], the regex
      class [\s]) are the Unicode ones restricted to that range.
    - The file store maps a path to the text that a text-mode [read]
      returns and a text-mode [write] receives (encoding and the
      translation of line endings are below this level).  Paths are
      taken in the normal form that [str(Path(p))] prints.
    - [print] appends one entry to the list of printed messages.
    - A call either returns, leaves through [sys.exit], or raises.
    - What an external command does is a parameter: it runs to its end,
      possibly changing files and printing, and leaves a return code,
      or its program is not found. *)

From Stdlib Require Import String Ascii List Bool Arith ZArith Lia.
From stdpp Require Import base option gmap strings pretty.

#[local] Arguments String.append !_ _ : simpl nomatch.

(** ** Characters *)

Definition dquote : ascii := "034"%char.
Definition newline : ascii := "010"%char.
Definition space : ascii := " "%char.
Definition tab : ascii := "009"%char.

Definition q : string := String dquote "".
Definition nl : string := String newline "".

Definition is_newline (c : ascii) : bool := Ascii.eqb c newline.
Definition is_dquote (c : ascii) : bool := Ascii.eqb c dquote.

(** [str.isspace] on one character, which is also the regex class [\s]
    of a [str] pattern: TAB, LF, VT, FF, CR, FS, GS, RS, US, SPACE, NEL,
    NBSP. *)
Definition isspace (c : ascii) : bool :=
  let n := nat_of_ascii c in
  ((9 <=? n) && (n <=? 13)) || ((28 <=? n) && (n <=? 32))
  || (n =? 133) || (n =? 160).

(** The regex class [[ \t]]. *)
Definition is_blank (c : ascii) : bool :=
  Ascii.eqb c space || Ascii.eqb c tab.

(** [str.lower] on one character: A-Z and the Latin-1 capitals
    (U+00C0 to U+00DE but the multiplication sign) move up by 32. *)
Definition chr_lower (c : ascii) : ascii :=
  let n := nat_of_ascii c in
  if ((65 <=? n) && (n <=? 90))
     || ((192 <=? n) && (n <=? 222) && negb (n =? 215))
  then ascii_of_nat (n + 32) else c.

(** ** Python string operations *)

(** [s.lower()] *)
Fixpoint lower (s : string) : string :=
  match s with
  | "" => ""
  | String c t => String (chr_lower c) (lower t)
  end.

(** [s.startswith(p)] *)
Fixpoint startswith (s p : string) {struct p} : bool :=
  match p with
  | "" => true
  | String a p' =>
      match s with
      | "" => false
      | String b s' => Ascii.eqb a b && startswith s' p'
      end
  end.

(** [s[n:]] *)
Fixpoint drop_chars (n : nat) (s : string) : string :=
  match n, s with
  | O, _ => s
  | S _, "" => ""
  | S k, String _ t => drop_chars k t
  end.

(** [s.lstrip()], [s.rstrip()] and [s.strip()] *)
Fixpoint lstrip (s : string) : string :=
  match s with
  | "" => ""
  | String c t => if isspace c then lstrip t else s
  end.

Fixpoint rstrip (s : string) : string :=
  match s with
  | "" => ""
  | String c t =>
      match rstrip t with
      | "" => if isspace c then "" else String c ""
      | r => String c r
      end
  end.

Definition strip (s : string) : string := rstrip (lstrip s).

(** [sub in s] *)
Fixpoint contains (sub s : string) : bool :=
  startswith s sub
  || match s with
     | "" => false
     | String _ t => contains sub t
     end.

(** [c in s] for a one-character string *)
Fixpoint has_chr (c : ascii) (s : string) : bool :=
  match s with
  | "" => false
  | String a t => Ascii.eqb a c || has_chr c t
  end.

(** [c * n] for a one-character string *)
Fixpoint repeat_chr (c : ascii) (n : nat) : string :=
  match n with
  | O => ""
  | S k => String c (repeat_chr c k)
  end.

(** [s.replace(old, new)] for a non-empty [old]: the occurrences of
    [old] are found from the left and do not overlap.  [skip] counts the
    characters of the occurrence being replaced that are still ahead. *)
Fixpoint replace_from (old new : string) (skip : nat) (s : string) : string :=
  match s with
  | "" => ""
  | String c t =>
      match skip with
      | S k => replace_from old new k t
      | O =>
          if startswith s old
          then new +:+ replace_from old new (String.length old - 1) t
          else String c (replace_from old new 0 t)
      end
  end.

(** With an empty [old], [new] goes before every character and at the
    end. *)
Fixpoint intersperse (new s : string) : string :=
  match s with
  | "" => new
  | String c t => new +:+ String c (intersperse new t)
  end.

Definition replace (old new s : string) : string :=
  match old with
  | "" => intersperse new s
  | _ => replace_from old new 0 s
  end.

(** [s.replace(old, new, 1)]: only the leftmost occurrence. *)
Fixpoint replace_first (old new s : string) : string :=
  if startswith s old
  then new +:+ drop_chars (String.length old) s
  else match s with
       | "" => ""
       | String c t => String c (replace_first old new t)
       end.

(** [sep.join(l)] *)
Fixpoint join (sep : string) (l : list string) : string :=
  match l with
  | [] => ""
  | [x] => x
  | x :: r => x +:+ sep +:+ join sep r
  end.

(** [s.split()]: the maximal runs of non-space characters.  [cur] is the
    run being read, if any. *)
Fixpoint split_go (cur : option string) (s : string) : list string :=
  match s with
  | "" => match cur with Some w => [String.rev w] | None => [] end
  | String c t =>
      if isspace c
      then match cur with
           | Some w => String.rev w :: split_go None t
           | None => split_go None t
           end
      else split_go (Some (String c (default "" cur))) t
  end.

Definition split_ws (s : string) : list string := split_go None s.

(** [f.readlines()]: the lines of a text, each with its line feed; the
    last one may lack it. *)
Fixpoint readlines (s : string) : list string :=
  match s with
  | "" => []
  | String c t =>
      if is_newline c then String c "" :: readlines t
      else match readlines t with
           | [] => [String c ""]
           | l :: r => String c l :: r
           end
  end.

(** [f.writelines(l)] writes the concatenation. *)
Definition writelines (l : list string) : string := join "" l.

(** ** The tab-section pattern

    [extract_sections_from_markdown_file] compiles, with [re.MULTILINE],
    the pattern (its double quotes are written Q here)
      ^=== Q ([^Q]+) Q \s* \n ( (?: ^ [ \t]+ .* \n* )* )
    The matcher below follows it piece by piece, in the order in which a
    backtracking engine tries the alternatives; every piece but [\s*] can
    only succeed with its longest match, and [\s*] gives characters back
    until a line feed follows. *)

(** The literal that opens a tab line: three equal signs, a space and
    a double quote. *)
Definition tab_open : string := "=== " +:+ q.

(** [s] without the prefix [p], if it starts with it *)
Fixpoint strip_prefix (p s : string) : option string :=
  match p, s with
  | "", _ => Some s
  | String a p', String b s' =>
      if Ascii.eqb a b then strip_prefix p' s' else None
  | String _ _, "" => None
  end.

(** A greedy character class: the longest prefix of characters in the
    class, and what follows it. *)
Fixpoint span (p : ascii -> bool) (s : string) : string * string :=
  match s with
  | "" => ("", "")
  | String c t =>
      if p c then let '(a, b) := span p t in (String c a, b)
      else ("", s)
  end.

(** [\s*\n]: [\s*] first takes every space character, line feeds
    included, then gives them back one at a time until the next
    character is a line feed.  So the two together consume the run of
    spaces up to and including its last line feed, and fail when the run
    has none.  The result is the text consumed and the rest. *)
Fixpoint spaces_then_newline (s : string) : option (string * string) :=
  match s with
  | "" => None
  | String c t =>
      if isspace c then
        match spaces_then_newline t with
        | Some (m, r) => Some (String c m, r)
        | None => if is_newline c then Some (String c "", t) else None
        end
      else None
  end.

(** The group [( (?: ^ [ \t]+ .* \n* )* )], read one character at a time.  An
    iteration starts at [AtLineStart], needs one blank to enter
    [InIndent] ([[ \t]+]), runs to the end of the line in [InLine]
    ([.*], which stops before a line feed) and takes the line feeds that
    follow in [InNewlines] ([\n*]); after them the next iteration
    starts, and the group ends where an iteration cannot start.  When
    [.*] stops at the end of the text no line feed precedes, [^] fails
    and the group ends there too.  The result is the text of the group
    and the rest. *)
Inductive body_state := AtLineStart | InIndent | InLine | InNewlines.

Fixpoint tab_body (st : body_state) (s : string) : string * string :=
  match s with
  | "" => ("", "")
  | String c t =>
      let take st' := let '(m, r) := tab_body st' t in (String c m, r) in
      match st with
      | AtLineStart => if is_blank c then take InIndent else ("", s)
      | InIndent =>
          if is_blank c then take InIndent
          else if is_newline c then take InNewlines
          else take InLine
      | InLine => if is_newline c then take InNewlines else take InLine
      | InNewlines =>
          if is_newline c then take InNewlines
          else if is_blank c then take InIndent
          else ("", s)
      end
  end.

(** A match object: [group(1)] and [group(0)]. *)
Record tab_match := TabMatch { tab_name : string; full_match : string }.

(** The pattern tried at one position where [^] holds. *)
Definition match_tab (s : string) : option tab_match :=
  match strip_prefix tab_open s with
  | None => None
  | Some s1 =>
      let '(name, s2) := span (fun c => negb (is_dquote c)) s1 in
      match name, s2 with
      | "", _ => None
      | _, "" => None
      | _, String _ s3 =>
          match spaces_then_newline s3 with
          | None => None
          | Some (ws, s4) =>
              let '(body, _) := tab_body AtLineStart s4 in
              Some (TabMatch name (tab_open +:+ name +:+ q +:+ ws +:+ body))
          end
      end
  end.

(** [list(tab_pattern.finditer(content))]: the matches from left to
    right, the search resuming where a match ends.  [bol] tells whether
    [^] holds here (at the start, and after a line feed); [skip] counts
    the characters of the last match that are still ahead. *)
Fixpoint finditer_from (skip : nat) (bol : bool) (s : string) : list tab_match :=
  match s with
  | "" => []
  | String c t =>
      let bol' := is_newline c in
      match skip with
      | S k => finditer_from k bol' t
      | O =>
          match (if bol then match_tab s else None) with
          | Some m =>
              m :: finditer_from (String.length (full_match m) - 1) bol' t
          | None => finditer_from 0 bol' t
          end
      end
  end.

Definition finditer (content : string) : list tab_match :=
  finditer_from 0 true content.

(** [re.sub] of the pattern [\n{4,}] by three line feeds: every maximal run of four or more
    line feeds becomes three.  [run] counts the line feeds just before
    this point; of a run, the first three are copied and the others
    dropped. *)
Fixpoint sub_newlines_from (run : nat) (s : string) : string :=
  match s with
  | "" => ""
  | String c t =>
      if is_newline c
      then if run <? 3
           then String c (sub_newlines_from (S run) t)
           else sub_newlines_from (S run) t
      else String c (sub_newlines_from 0 t)
  end.

Definition sub_newlines (s : string) : string := sub_newlines_from 0 s.

(** Test documents are written with [tabline] and [ln]. *)
Definition tabline (name : string) : string := tab_open +:+ name +:+ q +:+ nl.
Definition ln (s : string) : string := s +:+ nl.

(** ** Paths ([pathlib], POSIX flavour) *)

Definition slash : ascii := "/"%char.
Definition dot : ascii := "."%char.
Definition nul : ascii := "000"%char.

(** A path cut after its last slash: the directory part, slash
    included, and [Path(p).name]. *)
Fixpoint path_split (p : string) : string * string :=
  match p with
  | "" => ("", "")
  | String c t =>
      let '(d, n) := path_split t in
      match d with
      | "" => if Ascii.eqb c slash then (String c "", n) else ("", String c n)
      | _ => (String c d, n)
      end
  end.

Definition path_name (p : string) : string := snd (path_split p).

(** [(s[:i], s[i:])] for [i = s.rfind('.')], and [(s, "")] when [s] has
    no dot. *)
Fixpoint rsplit_dot (s : string) : string * string :=
  match s with
  | "" => ("", "")
  | String c t =>
      let '(a, b) := rsplit_dot t in
      match b with
      | "" => if Ascii.eqb c dot then ("", String c t) else (String c a, "")
      | _ => (String c a, b)
      end
  end.

(** [Path(p).suffix] and [Path(p).stem]: the name is cut at its last
    dot [i] when [0 < i < len(name) - 1]. *)
Definition has_suffix (name : string) : bool :=
  let '(a, b) := rsplit_dot name in
  negb (String.eqb a "") && (1 <? String.length b).

Definition suffix (p : string) : string :=
  let name := path_name p in
  if has_suffix name then snd (rsplit_dot name) else "".

Definition stem (p : string) : string :=
  let name := path_name p in
  if has_suffix name then fst (rsplit_dot name) else name.

(** [Path(p).with_name(name)]; [None] stands for its [ValueError] (the
    path has no name, or the new name is empty, a single dot, or holds
    a slash). *)
Definition with_name (p name : string) : option string :=
  let '(d, n) := path_split p in
  if String.eqb n "" then None
  else if String.eqb name "" || has_chr slash name || String.eqb name "."
  then None
  else Some (d +:+ name).

(** [s.endswith(p)] *)
Fixpoint endswith (s p : string) : bool :=
  String.eqb s p
  || match s with
     | "" => false
     | String _ t => endswith t p
     end.

(** ** Effects: the file store, the printed messages, exits and
    exceptions *)

Record world := World {
  files : gmap string string;
  stdout : list string
}.

Inductive exn :=
  | IndexError | ValueError | TypeError
  | FileNotFoundError | CalledProcessError.

Inductive outcome (A : Type) :=
  | Returned (a : A)
  | Exited (code : nat)
  | Raised (e : exn).
Arguments Returned {A} a.
Arguments Exited {A} code.
Arguments Raised {A} e.

Definition M (A : Type) : Type := world -> outcome A * world.

Global Instance M_ret : MRet M := fun A a w => (Returned a, w).

Global Instance M_bind : MBind M := fun A B f m w =>
  match m w with
  | (Returned a, w') => f a w'
  | (Exited c, w') => (Exited c, w')
  | (Raised e, w') => (Raised e, w')
  end.

Definition raise {A} (e : exn) : M A := fun w => (Raised e, w).

(** [sys.exit(code)] *)
Definition sys_exit {A} (code : nat) : M A := fun w => (Exited code, w).

(** [print(msg)] *)
Definition print (msg : string) : M unit := fun w =>
  (Returned (), World (files w) (stdout w ++ [msg])).

(** [Path(p).exists()]; a path with a NUL character names no file. *)
Definition path_exists (p : string) : M bool := fun w =>
  (Returned (negb (has_chr nul p) && bool_decide (is_Some (files w !! p))), w).

(** [open(p, "r")] followed by [f.read()] *)
Definition read_text (p : string) : M string := fun w =>
  match files w !! p with
  | Some s => (Returned s, w)
  | None => (Raised FileNotFoundError, w)
  end.

(** [open(p, "w")] followed by [f.write(s)]; [open] refuses a path
    with a NUL character. *)
Definition write_text (p s : string) : M unit := fun w =>
  if has_chr nul p then (Raised ValueError, w)
  else (Returned (), World (<[p := s]> (files w)) (stdout w)).

(** An [option] whose [None] stands for an exception *)
Definition or_raise {A} (e : exn) (o : option A) : M A :=
  match o with
  | Some a => mret a
  | None => raise e
  end.

(** A pure computation that may raise *)
Definition lift {A} (o : outcome A) : M A := fun w => (o, w).

(** ** Extraction of one tab section *)

(** The loop over [reversed(matches)]: a match whose lowered name is the
    target is kept; of any other, the leftmost occurrence of its text in
    the running result is removed. *)
Definition is_target (target : string) (m : tab_match) : bool :=
  String.eqb (lower (tab_name m)) target.

Definition remove_step (target : string) (result_content : string)
    (m : tab_match) : string :=
  if is_target target m then result_content
  else replace_first (full_match m) "" result_content.

Definition remove_sections (target : string) (matches : list tab_match)
    (content : string) : string :=
  fold_left (remove_step target) (rev matches) content.

Definition extract_sections_from_markdown_file
    (file_path section_name : string) : M unit :=
  ex ← path_exists file_path;
  if negb ex then print ("File " +:+ file_path +:+ " does not exist.")
  else if negb (String.eqb (suffix file_path) ".md")
  then print ("File " +:+ file_path +:+ " is not a markdown file.")
  else
    content ← read_text file_path;
    let matches := finditer content in
    let target_section_name := lower section_name in
    match matches with
    | [] => print ("No tab sections found in " +:+ file_path)
    | _ =>
        let result_content :=
          remove_sections target_section_name matches content in
        let kept_sections :=
          List.filter (is_target target_section_name) matches in
        match kept_sections with
        | [] =>
            print ("No sections found for '" +:+ section_name +:+ "' in "
                   +:+ file_path)
        | _ =>
            let result_content := sub_newlines result_content in
            output_file ← or_raise ValueError
              (with_name file_path
                 (stem file_path +:+ "-" +:+ lower section_name
                  +:+ suffix file_path));
            write_text output_file result_content;;
            print ("Extracted '" +:+ section_name
                   +:+ "' sections written to: " +:+ output_file);;
            print ("Kept " +:+ pretty (length kept_sections)
                   +:+ " section(s), removed "
                   +:+ pretty (length matches - length kept_sections)
                   +:+ " section(s)")
        end
    end.

Definition usage_extract : string :=
  "Usage: extract-sections-from-markdown-file <file_path> <section_name>".

Definition valid_sections : list string := ["pandas"; "sql"; "pyspark"; "polars"].

Definition extract_sections_from_markdown_file_cli (argv : list string)
    : M unit :=
  if length argv <? 3 then print usage_extract;; sys_exit 1
  else
    file_path ← or_raise IndexError (argv !! 1);
    section_name ← or_raise IndexError (argv !! 2);
    if negb (bool_decide (lower section_name ∈ valid_sections))
    then
      print ("Invalid section name '" +:+ section_name
             +:+ "'. Valid options are: " +:+ join ", " valid_sections);;
      sys_exit 1
    else extract_sections_from_markdown_file file_path section_name.

(** ** Reformatting *)

(** [int(c)] for a one-character string: a decimal digit, or
    [ValueError]. *)
Definition digit_value (c : ascii) : option nat :=
  let n := nat_of_ascii c in
  if (48 <=? n) && (n <=? 57) then Some (n - 48) else None.

(** What replaces the three equal signs and the space of a tab line:
    [level] hashes for a style that starts with h, the stripped style
    itself otherwise; then a space. *)
Definition header_marker (replace_tab_with_header : string) : outcome string :=
  if startswith replace_tab_with_header "h" then
    match String.get 1 replace_tab_with_header with
    | None => Raised IndexError
    | Some c =>
        match digit_value c with
        | None => Raised ValueError
        | Some level => Returned (repeat_chr "#" level +:+ " ")
        end
    end
  else Returned (strip replace_tab_with_header +:+ " ").

(** The scanning state of the loop of [reformat_file]. *)
Record scan_state := ScanState { in_code_block : bool; in_tab_block : bool }.

Definition include_marker : string := "--8<--".
Definition fence : string := "```".
Definition fence_py : string := "```py".
Definition fence_python : string := "```python".

(** One turn of the loop: the line written back and the next state. *)
Definition reformat_line (replace_tab_with_header : string)
    (st : scan_state) (line : string) : outcome (string * scan_state) :=
  if String.length (strip line) =? 0 then Returned (line, st)
  else
    (* Dedent lines in Tab blocks *)
    let '(line, in_tab) :=
      if in_tab_block st then
        if startswith line "    " then (drop_chars 4 line, true)
        else (line, false)
      else (line, false) in
    (* Convert headings for Tab blocks *)
    let converted :=
      if startswith line "===" then
        match header_marker replace_tab_with_header with
        | Returned h => Returned (replace q "" (replace "=== " h line), true)
        | Exited c => Exited c
        | Raised e => Raised e
        end
      else Returned (line, in_tab) in
    match converted with
    | Exited c => Exited c
    | Raised e => Raised e
    | Returned (line, in_tab) =>
        (* Handle code block start *)
        let '(line, in_code) :=
          if startswith line fence_py && negb (startswith line fence_python)
          then (replace fence_py fence_python line, true)
          else (line, in_code_block st) in
        let in_code :=
          if in_code then
            if startswith (strip line) fence then false else true
          else false in
        (* Remove special markers outside code blocks *)
        let line :=
          if negb in_code then
            if contains include_marker line then "" else line
          else line in
        Returned (line, ScanState in_code in_tab)
    end.

Fixpoint reformat_lines (replace_tab_with_header : string)
    (st : scan_state) (lines : list string) : outcome (list string) :=
  match lines with
  | [] => Returned []
  | line :: rest =>
      match reformat_line replace_tab_with_header st line with
      | Returned (line', st') =>
          match reformat_lines replace_tab_with_header st' rest with
          | Returned rest' => Returned (line' :: rest')
          | Exited c => Exited c
          | Raised e => Raised e
          end
      | Exited c => Exited c
      | Raised e => Raised e
      end
  end.

Definition initial_state : scan_state := ScanState false false.

(** [expand_space]: every element split on spaces *)
Definition expand_space (lst : list string) : list string :=
  List.concat (List.map split_ws lst).

(** The end of a child process, as [subprocess.run] sees it. *)
Inductive completed :=
  | Finished (returncode : Z) (w : world)
  | NotStarted.

Section Scripts.

(** What the operating system does with a command line: the child
    process runs to its end, may change the files and print, and leaves
    a return code; or the program is not found and nothing is run. *)
Variable subprocess_run : list string -> world -> completed.

(** [subprocess.run(command, check=True, encoding="utf-8")]: an empty
    command line has no program name ([IndexError]), a program that is
    not found is [FileNotFoundError], and [check=True] turns a non-zero
    return code into [CalledProcessError], raised after the child has
    finished, so that what the child did stays. *)
Definition subprocess (command : list string) : M unit := fun w =>
  match command, subprocess_run command w with
  | [], _ => (Raised IndexError, w)
  | _ :: _, Finished returncode w' =>
      if Z.eqb returncode 0 then (Returned (), w')
      else (Raised CalledProcessError, w')
  | _ :: _, NotStarted => (Raised FileNotFoundError, w)
  end.

Definition run_command (expand : bool) (command : list string) : M unit :=
  let _command := if expand then expand_space command else command in
  print (nl +:+ join " " _command);;
  subprocess _command.

Definition run : list string -> M unit := run_command true.

Definition reformat_file (file_path replace_tab_with_header : string)
    : M (option string) :=
  ex ← path_exists file_path;
  if negb ex then
    print ("File " +:+ file_path +:+ " does not exist.");; mret None
  else
    output_file ← or_raise ValueError
      (with_name file_path (stem file_path +:+ "-r" +:+ suffix file_path));
    (* Fix linting before converting *)
    run ["blacken-docs"; "--line-length=120"; "--skip-errors"; file_path];;
    content ← read_text file_path;
    let lines := readlines content in
    lines ← lift (reformat_lines replace_tab_with_header initial_state lines);
    write_text output_file (writelines lines);;
    print ("Reformatted file written to: " +:+ output_file);;
    mret (Some output_file).

Definition usage_reformat : string := "Usage: reformat-file <file_path>".

(** A non-empty string is true. *)
Definition truthy (s : string) : bool := negb (String.eqb s "").

Definition reformat_file_cli (argv : list string) : M unit :=
  if length argv <? 2 then print usage_reformat;; sys_exit 1
  else
    arg2 ← or_raise IndexError (argv !! 2);
    file_path ← or_raise IndexError (argv !! 1);
    if truthy arg2 then reformat_file file_path arg2;; mret ()
    else reformat_file file_path "h3";; mret ().

(** [convert_markdown_to_notebook]; [format_and_convert] may hand it
    [None], which [Path] refuses with [TypeError]. *)
Definition convert_markdown_to_notebook (input_file_path : option string)
    : M (option string) :=
  input_file_path ← or_raise TypeError input_file_path;
  ex ← path_exists input_file_path;
  if negb ex then
    print ("Input file " +:+ input_file_path +:+ " does not exist.");;
    mret None
  else if negb (endswith input_file_path ".md") then
    print ("Input file " +:+ input_file_path +:+ " is not a markdown file.");;
    mret None
  else
    let output_file := replace ".md" ".ipynb" input_file_path in
    run ["blacken-docs"; "--line-length=120"; "--skip-errors"; input_file_path];;
    run ["jupytext"; "--to=notebook"; "--update"; "--pipe=black";
         input_file_path; "--output=" +:+ output_file];;
    print ("Converted " +:+ input_file_path +:+ " to " +:+ output_file);;
    mret (Some output_file).

Definition usage_convert : string :=
  "Usage: convert-markdown-to-notebook <file_path>".

Definition convert_markdown_to_notebook_cli (argv : list string) : M unit :=
  if length argv <? 2 then print usage_convert;; sys_exit 1
  else
    file_path ← or_raise IndexError (argv !! 1);
    convert_markdown_to_notebook (Some file_path);; mret ().

Definition format_and_convert (file_path replace_tab_with_header : string)
    : M unit :=
  reformatted_file ← reformat_file file_path replace_tab_with_header;
  convert_markdown_to_notebook reformatted_file;; mret ().

Definition usage_format_and_convert : string :=
  "Usage: format-and-convert <file_path>".

Definition format_and_convert_cli (argv : list string) : M unit :=
  if length argv <? 2 then print usage_format_and_convert;; sys_exit 1
  else
    arg2 ← or_raise IndexError (argv !! 2);
    file_path ← or_raise IndexError (argv !! 1);
    if truthy arg2 then format_and_convert file_path arg2
    else format_and_convert file_path "h3".

(** The documentation commands: each is one or more calls of [run]. *)
Definition docs_serve_static : M unit := run ["mkdocs serve"].

Definition docs_serve_versioned : M unit :=
  run ["mike serve --branch=docs-site"].

Definition docs_build_static : M unit := run ["mkdocs build --clean"].

Definition docs_build_versioned (version : string) : M unit :=
  run ["git config --global --list"];;
  run ["git config --local --list"];;
  run ["git remote --verbose"];;
  run ["mike --debug deploy --update-aliases --branch=docs-site --push "
       +:+ version +:+ " latest"].

Definition usage_version : string := "Requires argument: <version>".

Definition docs_build_versioned_cli (argv : list string) : M unit :=
  if length argv <? 2 then print usage_version;; sys_exit 1
  else
    version ← or_raise IndexError (argv !! 2);
    docs_build_versioned version.

Definition update_git_docs (version : string) : M unit :=
  run ["git add ."];;
  run_command false
    ["git"; "commit";
     "--message=" +:+ q +:+ "Build docs `" +:+ version +:+ "` [skip ci]" +:+ q];;
  run ["git push --force --no-verify --push-option ci.skip"].

Definition update_git_docs_cli (argv : list string) : M unit :=
  if length argv <? 2 then print usage_version;; sys_exit 1
  else
    version ← or_raise IndexError (argv !! 2);
    update_git_docs version.

Definition docs_check_versions : M unit :=
  run ["mike --debug list --branch=docs-site"].

Definition docs_delete_version (version : string) : M unit :=
  run ["mike --debug delete --branch=docs-site " +:+ version].

Definition docs_delete_version_cli (argv : list string) : M unit :=
  if length argv <? 2 then print usage_version;; sys_exit 1
  else
    version ← or_raise IndexError (argv !! 2);
    docs_delete_version version.

Definition docs_set_default : M unit :=
  run ["mike --debug set-default --branch=docs-site --push latest"].

Definition build_static_docs (version : string) : M unit :=
  docs_build_static;;
  update_git_docs version.

Definition build_static_docs_cli (argv : list string) : M unit :=
  if length argv <? 2 then print usage_version;; sys_exit 1
  else
    version ← or_raise IndexError (argv !! 2);
    build_static_docs version.

Definition build_versioned_docs (version : string) : M unit :=
  docs_build_versioned version;;
  docs_set_default.

Definition build_versioned_docs_cli (argv : list string) : M unit :=
  if length argv <? 2 then print usage_version;; sys_exit 1
  else
    version ← or_raise IndexError (argv !! 2);
    build_versioned_docs version.

End Scripts.

(** * Vocabulary of the statements *)

(** ** Command-line entry points *)

(** What a missing-argument exit looks like: the usage line is printed,
    no file is touched and the process exits with status 1. *)
Definition usage_exit (usage : string) (w : world) : outcome unit * world :=
  (Exited 1, World (files w) (stdout w ++ [usage])).

(** ** The reformatting loop *)

(** The lines of a short-alias fence that holds an include marker. *)
Definition fenced_include : list string :=
  [ln "```py"; ln ("--8<-- " +:+ q +:+ "snippet.py" +:+ q); ln "```"].

(** ** Extraction: what a call does to the world *)

Definition extract_name (file_path section_name : string) : string :=
  stem file_path +:+ "-" +:+ lower section_name +:+ suffix file_path.

Definition extract_text (section_name content : string) : string :=
  sub_newlines
    (remove_sections (lower section_name) (finditer content) content).

Definition extract_messages (section_name out content : string) : list string :=
  let matches := finditer content in
  let kept := List.filter (is_target (lower section_name)) matches in
  ["Extracted '" +:+ section_name +:+ "' sections written to: " +:+ out;
   "Kept " +:+ pretty (length kept) +:+ " section(s), removed "
   +:+ pretty (length matches - length kept) +:+ " section(s)"].

(** The four reports of a call that does not write. *)
Definition extract_reports (file_path section_name : string) : list string :=
  ["File " +:+ file_path +:+ " does not exist.";
   "File " +:+ file_path +:+ " is not a markdown file.";
   "No tab sections found in " +:+ file_path;
   "No sections found for '" +:+ section_name +:+ "' in " +:+ file_path].

(** The conditions under which nothing is to be written. *)
Definition no_write_condition (file_path section_name : string) (w : world)
    : Prop :=
  files w !! file_path = None
  \/ suffix file_path <> ".md"
  \/ (exists content,
        files w !! file_path = Some content /\ finditer content = [])
  \/ (exists content,
        files w !! file_path = Some content
        /\ forall m, In m (finditer content) ->
                     lower (tab_name m) <> lower section_name).

(** The output path of a call: the directory part of the input path,
    then its stem, a dash, the section name and [.md]. *)
Definition extract_path (file_path section_name : string) : string :=
  fst (path_split file_path) +:+ stem file_path +:+ "-" +:+ section_name
  +:+ ".md".

(** ** Runs of line feeds *)

(** Four line feeds in a row. *)
Definition nl4 : string := repeat_chr newline 4.

(** The number of line feeds a text starts with. *)
Fixpoint leading_newlines (s : string) : nat :=
  match s with
  | "" => 0
  | String c t => if is_newline c then S (leading_newlines t) else 0
  end.

(** Whether the last character of a text is a line feed. *)
Fixpoint last_is_newline (s : string) : bool :=
  match s with
  | "" => false
  | String c t =>
      match t with
      | "" => is_newline c
      | _ => last_is_newline t
      end
  end.

(** A document whose sections are six line feeds apart. *)
Definition spaced_document : string :=
  tabline "pandas" +:+ ln "    df.sum()" +:+ "intro"
  +:+ repeat_chr newline 6 +:+ "outro" +:+ nl.

(** ** The reformatting loop: lines that pass unchanged *)

(** A line that the loop skips: only spaces. *)
Definition blank_line (line : string) : bool :=
  String.length (strip line) =? 0.

(** A line that is no tab line (it does not start with three equal
    signs), opens no short-alias fence and holds no include marker. *)
Definition plain_line (line : string) : bool :=
  negb (startswith line "===")
  && negb (startswith line fence_py && negb (startswith line fence_python))
  && negb (contains include_marker line).

(** A document that is flat in the words of the specification: no line
    is a tab line (three equal signs, a space and a quoted name) and no
    line opens a fence tagged with the short alias. *)
Definition flat_line (line : string) : bool :=
  negb (startswith line tab_open)
  && negb (startswith line fence_py && negb (startswith line fence_python)).

Definition flat_document (content : string) : bool :=
  forallb flat_line (readlines content).

(** A flat document with a snippet include, and one with a heading
    underlined by equal signs before an indented block. *)
Definition include_document : string :=
  ln "# Guide" +:+ ln ("--8<-- " +:+ q +:+ "snippets/setup.md" +:+ q)
  +:+ ln "Text.".

Definition underlined_document : string :=
  ln "Guide" +:+ ln "=====" +:+ ln "    indented".

(** The command line of the formatter and what [run] prints for it. *)
Definition formatter_command (file_path : string) : list string :=
  expand_space ["blacken-docs"; "--line-length=120"; "--skip-errors"; file_path].

Definition formatter_notice (file_path : string) : string :=
  nl +:+ join " " (formatter_command file_path).

(** A formatter that leaves every file as it is and exits with status
    0. *)
Definition idle_formatter (command : list string) (w : world) : completed :=
  Finished 0 w.

(** The world in which the formatter is started: its command line has
    been printed. *)
Definition formatter_start (file_path : string) (w : world) : world :=
  World (files w) (stdout w ++ [formatter_notice file_path]).

(** The world in which the lines are read: the one that the formatter
    left, when it ran and exited with status 0. *)
Definition formatted (subprocess_run : list string -> world -> completed)
    (file_path : string) (w : world) : option world :=
  match subprocess_run (formatter_command file_path)
          (formatter_start file_path w) with
  | Finished returncode w1 => if Z.eqb returncode 0 then Some w1 else None
  | NotStarted => None
  end.

(** ** The reformatting loop: a tab line and its body *)

(** A line of content: not blank, and plain. *)
Definition content_line (line : string) : bool :=
  negb (blank_line line) && plain_line line.

(** The four-space indent. *)
Definition indent : string := "    ".

(** ** The document as matches and the text between them *)

(** What [finditer] walks over: a character outside every match, or a
    match. *)
Inductive segment :=
  | Plain (c : ascii)
  | Tab (m : tab_match).

(** The document cut into segments, by the walk of [finditer_from]. *)
Fixpoint scan_from (skip : nat) (bol : bool) (s : string) : list segment :=
  match s with
  | "" => []
  | String c t =>
      let bol' := is_newline c in
      match skip with
      | S k => scan_from k bol' t
      | O =>
          match (if bol then match_tab s else None) with
          | Some m =>
              Tab m :: scan_from (String.length (full_match m) - 1) bol' t
          | None => Plain c :: scan_from 0 bol' t
          end
      end
  end.

Definition scan (content : string) : list segment := scan_from 0 true content.

Definition segment_text (g : segment) : string :=
  match g with
  | Plain c => String c ""
  | Tab m => full_match m
  end.

Fixpoint flatten (segs : list segment) : string :=
  match segs with
  | [] => ""
  | g :: r => segment_text g +:+ flatten r
  end.

Fixpoint tabs (segs : list segment) : list tab_match :=
  match segs with
  | [] => []
  | Plain _ :: r => tabs r
  | Tab m :: r => m :: tabs r
  end.

(** A segment that stays: text outside the matches, and the matches of
    the requested name. *)
Definition stays (target : string) (g : segment) : bool :=
  match g with
  | Plain _ => true
  | Tab m => is_target target m
  end.

(** The document with the span of every other match deleted. *)
Definition delete_spans (target content : string) : string :=
  flatten (List.filter (stays target) (scan content)).

(** [s.find(sub)]: the offset of the leftmost occurrence. *)
Fixpoint find (sub s : string) : option nat :=
  if startswith s sub then Some 0
  else match s with
       | "" => None
       | String _ t => option_map S (find sub t)
       end.

(** Every match to remove is the leftmost occurrence of its own text:
    [content.find(match.group(0)) == match.start()].  [offset] is the
    offset of the first segment. *)
Fixpoint leftmost_from (target content : string) (offset : nat)
    (segs : list segment) : bool :=
  match segs with
  | [] => true
  | Plain _ :: r => leftmost_from target content (S offset) r
  | Tab m :: r =>
      (is_target target m
       || bool_decide (find (full_match m) content = Some offset))
      && leftmost_from target content
           (offset + String.length (full_match m)) r
  end.

Definition removed_are_leftmost (target content : string) : bool :=
  leftmost_from target content 0 (scan content).

(** A pandas section whose body holds five line feeds in a row. *)
Definition collapsed_document : string :=
  tabline "pandas" +:+ "    x" +:+ repeat_chr newline 5 +:+ ln "    y"
  +:+ tabline "sql" +:+ ln "    z".

(** Two sql sections, the text of the second being how the first
    starts. *)
Definition repeated_document : string :=
  tabline "sql" +:+ ln "    a" +:+ ln "    b"
  +:+ tabline "sql" +:+ ln "    a"
  +:+ tabline "pandas" +:+ ln "    c".

(** The text of the sql section, once more after the sections, not at
    the start of a line. *)
Definition quoted_document : string :=
  tabline "sql" +:+ ln "    a" +:+ tabline "pandas" +:+ ln "    b"
  +:+ "x" +:+ tabline "sql" +:+ ln "    a".

(** The text that a call for the pandas sections of [guide.md] writes. *)
Definition pandas_of (content : string) : option string :=
  let w := World {[ "guide.md" := content ]} [] in
  files (snd (extract_sections_from_markdown_file "guide.md" "pandas" w))
    !! "guide-pandas.md".

(** ** Entry points that take a version *)

(** The five entry points of the documentation commands, by name. *)
Definition version_entry_points
    (subprocess_run : list string -> world -> completed)
    : list (string * (string -> M unit) * (list string -> M unit)) :=
  [("docs-build-versioned", docs_build_versioned subprocess_run,
    docs_build_versioned_cli subprocess_run);
   ("update-git-docs", update_git_docs subprocess_run,
    update_git_docs_cli subprocess_run);
   ("docs-delete-version", docs_delete_version subprocess_run,
    docs_delete_version_cli subprocess_run);
   ("build-static-docs", build_static_docs subprocess_run,
    build_static_docs_cli subprocess_run);
   ("build-versioned-docs", build_versioned_docs subprocess_run,
    build_versioned_docs_cli subprocess_run)].

(** What [extract_sections_from_markdown_file_cli] prints for a section
    name it does not know. *)
Definition invalid_section_notice (section_name : string) : string :=
  "Invalid section name '" +:+ section_name
  +:+ "'. Valid options are: pandas, sql, pyspark, polars".

(** ** Command lines *)

(** Whether a text holds a space character, and whether it is a word:
    not empty and without space characters. *)
Fixpoint has_space (s : string) : bool :=
  match s with
  | "" => false
  | String c t => isspace c || has_space t
  end.

Definition is_word (s : string) : bool :=
  negb (String.eqb s "") && negb (has_space s).

(** ** Header styles *)

(** The six styles that the signature of [reformat_file] lists. *)
Definition header_styles : list string :=
  ["##"; "###"; "####"; "h2"; "h3"; "h4"].

(** A line that the loop takes for a tab line. *)
Definition tab_line (line : string) : bool := startswith line "===".

(** A formatter that rewrites [guide.md] and then exits with status
    1, and one that is not installed. *)
Definition failing_formatter (command : list string) (w : world)
    : completed :=
  Finished 1 (World (<["guide.md" := ln "# Formatted"]> (files w)) (stdout w)).

Definition missing_formatter (command : list string) (w : world)
    : completed :=
  NotStarted.

(** ** Conversion to a notebook *)

(** The command line of the converter and what [run] prints for it. *)
Definition converter_command (input_file_path output_file : string)
    : list string :=
  expand_space ["jupytext"; "--to=notebook"; "--update"; "--pipe=black";
                input_file_path; "--output=" +:+ output_file].

Definition converter_notice (input_file_path output_file : string) : string :=
  nl +:+ join " " (converter_command input_file_path output_file).

(** ** A tab section as the pattern reads it *)

(** The body of a section: every text on a line of its own, after four
    spaces. *)
Fixpoint body_lines (texts : list string) : string :=
  match texts with
  | [] => ""
  | t :: r => indent +:+ t +:+ nl +:+ body_lines r
  end.

(** A text without a line feed. *)
Definition one_line (t : string) : bool := negb (has_chr newline t).

(** What follows a section: nothing, or text that starts with a
    character that is no space character. *)
Definition starts_text (rest : string) : bool :=
  match rest with
  | "" => true
  | String c _ => negb (isspace c)
  end.

(** A text of space characters only. *)
Fixpoint all_space (s : string) : bool :=
  match s with
  | "" => true
  | String c t => isspace c && all_space t
  end.

(** ** Tab blocks whose lines are not dedented *)




(** * Properties *)

(** ** Running a command *)

Lemma subprocess_nonempty
    (subprocess_run : list string -> world -> completed)
    (command : list string) (w : world) :
  command <> [] ->
  subprocess subprocess_run command w
  = match subprocess_run command w with
    | Finished returncode w' =>
        if Z.eqb returncode 0 then (Returned (), w')
        else (Raised CalledProcessError, w')
    | NotStarted => (Raised FileNotFoundError, w)
    end.
Proof. destruct command; [congruence|reflexivity]. Qed.

Lemma formatter_command_nonempty (file_path : string) :
  formatter_command file_path <> [].
Proof. unfold formatter_command, expand_space. cbn. discriminate. Qed.

Lemma run_formatter
    (subprocess_run : list string -> world -> completed)
    (file_path : string) (w : world) :
  run subprocess_run
    ["blacken-docs"; "--line-length=120"; "--skip-errors"; file_path] w
  = match subprocess_run (formatter_command file_path)
            (formatter_start file_path w) with
    | Finished returncode w1 =>
        if Z.eqb returncode 0 then (Returned (), w1)
        else (Raised CalledProcessError, w1)
    | NotStarted => (Raised FileNotFoundError, formatter_start file_path w)
    end.
Proof.
  unfold run, run_command, mbind, M_bind, print.
  fold (formatter_command file_path). fold (formatter_notice file_path).
  fold (formatter_start file_path w).
  now rewrite subprocess_nonempty by apply formatter_command_nonempty.
Qed.

(** [reformat_file], with its steps in sequence written out as one case
    analysis. *)
Lemma reformat_file_eq
    (subprocess_run : list string -> world -> completed)
    (file_path header : string) (w : world) :
  reformat_file subprocess_run file_path header w =
  if negb (has_chr nul file_path) && bool_decide (is_Some (files w !! file_path))
  then
    match with_name file_path (stem file_path +:+ "-r" +:+ suffix file_path) with
    | None => (Raised ValueError, w)
    | Some out =>
        match subprocess_run (formatter_command file_path)
                (formatter_start file_path w) with
        | NotStarted =>
            (Raised FileNotFoundError, formatter_start file_path w)
        | Finished returncode w1 =>
            if Z.eqb returncode 0 then
              match files w1 !! file_path with
              | None => (Raised FileNotFoundError, w1)
              | Some content =>
                  match reformat_lines header initial_state
                          (readlines content) with
                  | Returned lines =>
                      if has_chr nul out then (Raised ValueError, w1)
                      else (Returned (Some out),
                            World (<[out := writelines lines]> (files w1))
                                  (stdout w1
                                   ++ ["Reformatted file written to: "
                                       +:+ out]))
                  | Exited c => (Exited c, w1)
                  | Raised e => (Raised e, w1)
                  end
              end
            else (Raised CalledProcessError, w1)
        end
    end
  else (Returned None,
        World (files w) (stdout w ++ ["File " +:+ file_path +:+ " does not exist."])).
Proof.
  unfold reformat_file.
  unfold mbind at 1, M_bind at 1, path_exists.
  destruct (negb (has_chr nul file_path)
            && bool_decide (is_Some (files w !! file_path)));
    cbn [negb]; [|reflexivity].
  unfold mbind at 1, M_bind at 1.
  destruct (with_name file_path _) as [out|]; cbn [or_raise mret M_ret raise];
    [|reflexivity].
  unfold mbind at 1, M_bind at 1. rewrite run_formatter.
  destruct (subprocess_run _ _) as [returncode w1|]; [|reflexivity].
  destruct (Z.eqb returncode 0); [|reflexivity].
  unfold mbind, M_bind, read_text.
  destruct (files w1 !! file_path) as [content|]; [|reflexivity].
  unfold lift.
  destruct (reformat_lines header initial_state (readlines content))
    as [lines|c|e]; [|reflexivity..].
  unfold write_text. destruct (has_chr nul out); reflexivity.
Qed.

(** ** Command-line entry points *)

Section EntryPoints.

Variable subprocess_run : list string -> world -> completed.

Lemma missing_args (n : nat) (argv : list string) (usage : string)
    (k : M unit) (w : world) :
  length argv < n ->
  (if length argv <? n then print usage;; sys_exit 1 else k) w
  = usage_exit usage w.
Proof.
  intros H. apply Nat.ltb_lt in H. rewrite H. reflexivity.
Qed.

(** C9: each of the four entry points, started without all of its
    required positional arguments (two for extract-sections, one for
    the others), prints its usage line and exits with status 1. *)
Theorem cli_missing_arguments_exit_1 (argv : list string) (w : world) :
  (length argv < 3 ->
   extract_sections_from_markdown_file_cli argv w
   = usage_exit usage_extract w)
  /\ (length argv < 2 ->
      reformat_file_cli subprocess_run argv w = usage_exit usage_reformat w
      /\ convert_markdown_to_notebook_cli subprocess_run argv w
         = usage_exit usage_convert w
      /\ format_and_convert_cli subprocess_run argv w
         = usage_exit usage_format_and_convert w).
Proof.
  split.
  - intros H. unfold extract_sections_from_markdown_file_cli.
    now apply missing_args.
  - intros H. repeat split.
    + unfold reformat_file_cli. now apply missing_args.
    + unfold convert_markdown_to_notebook_cli. now apply missing_args.
    + unfold format_and_convert_cli. now apply missing_args.
Qed.

(** C3: with the file path as the only argument, [sys.argv[2]] is read
    before anything else and raises [IndexError]: both entry points
    leave through an uncaught exception, nothing is printed and no file
    is written. *)
Theorem cli_header_style_omitted_raises (prog file_path : string) (w : world) :
  reformat_file_cli subprocess_run [prog; file_path] w = (Raised IndexError, w)
  /\ format_and_convert_cli subprocess_run [prog; file_path] w
     = (Raised IndexError, w).
Proof. split; reflexivity. Qed.

End EntryPoints.

(** The entry points started with one argument too few: the program
    name and a file for extract-sections, the program name alone for
    the others. *)
Lemma cli_missing_arguments_exit_1_witness :
  let w := World {[ "guide.md" := ln "# Guide" ]} [] in
  extract_sections_from_markdown_file_cli ["extract-sections"; "guide.md"] w
  = usage_exit usage_extract w
  /\ reformat_file_cli idle_formatter ["reformat-file"] w
     = usage_exit usage_reformat w
  /\ convert_markdown_to_notebook_cli idle_formatter ["convert-to-notebook"] w
     = usage_exit usage_convert w
  /\ format_and_convert_cli idle_formatter ["format-and-convert"] w
     = usage_exit usage_format_and_convert w.
Proof.
  intros w.
  destruct (cli_missing_arguments_exit_1 idle_formatter
              ["extract-sections"; "guide.md"] w) as [H1 _].
  destruct (cli_missing_arguments_exit_1 idle_formatter
              ["reformat-file"] w) as [_ H2].
  destruct (cli_missing_arguments_exit_1 idle_formatter
              ["convert-to-notebook"] w) as [_ H3].
  destruct (cli_missing_arguments_exit_1 idle_formatter
              ["format-and-convert"] w) as [_ H4].
  split; [apply H1; simpl; lia|].
  split; [apply H2; simpl; lia|].
  split; [apply H3; simpl; lia|apply H4; simpl; lia].
Defined.

(** ** The reformatting loop *)

(** C2: the line that opens a short-alias fence sets [in_code_block]
    and, still in the same turn, clears it again, because the rewritten
    line itself starts with a fence.  The include marker on the next
    line, inside the fence, is therefore blanked. *)
Theorem include_marker_blanked_inside_fence :
  reformat_lines "h3" initial_state fenced_include
  = Returned [ln "```python"; ""; ln "```"]
  /\ (exists st, reformat_line "h3" initial_state (ln "```py")
                 = Returned (ln "```python", st)
                 /\ in_code_block st = false).
Proof.
  split; [reflexivity|].
  eexists; split; reflexivity.
Qed.

(** ** Strings and paths: basic facts *)

Lemma app_assoc_s (a b c : string) : (a +:+ b) +:+ c = a +:+ (b +:+ c).
Proof. induction a; simpl; congruence. Qed.

Lemma app_empty_r (a : string) : a +:+ "" = a.
Proof. induction a; simpl; congruence. Qed.

Lemma length_app_s (a b : string) :
  String.length (a +:+ b) = String.length a + String.length b.
Proof. induction a; simpl; congruence. Qed.

Lemma has_chr_app (c : ascii) (a b : string) :
  has_chr c (a +:+ b) = has_chr c a || has_chr c b.
Proof.
  induction a as [|x a IH]; simpl; [reflexivity|].
  rewrite IH. now rewrite orb_assoc.
Qed.

Lemma path_split_app (p : string) :
  fst (path_split p) +:+ snd (path_split p) = p.
Proof.
  induction p as [|c t IH]; simpl; [reflexivity|].
  destruct (path_split t) as [d n]; simpl in *.
  destruct d; simpl in *.
  - destruct (Ascii.eqb c slash); simpl; congruence.
  - congruence.
Qed.

Lemma rsplit_dot_app (s : string) :
  fst (rsplit_dot s) +:+ snd (rsplit_dot s) = s.
Proof.
  induction s as [|c t IH]; simpl; [reflexivity|].
  destruct (rsplit_dot t) as [a b]; simpl in *.
  destruct b; simpl in *.
  - destruct (Ascii.eqb c dot); simpl; congruence.
  - congruence.
Qed.

Lemma stem_suffix (p : string) : stem p +:+ suffix p = path_name p.
Proof.
  unfold stem, suffix. destruct (has_suffix (path_name p)).
  - apply rsplit_dot_app.
  - apply app_empty_r.
Qed.

(** A path is its directory part, its stem and its suffix. *)
Lemma path_parts (p : string) :
  fst (path_split p) +:+ stem p +:+ suffix p = p.
Proof. rewrite stem_suffix. apply path_split_app. Qed.

Lemma with_name_some (p name out : string) :
  with_name p name = Some out ->
  out = fst (path_split p) +:+ name /\ has_chr slash name = false.
Proof.
  unfold with_name. destruct (path_split p) as [d n]; simpl.
  destruct (String.eqb n ""); [discriminate|].
  destruct (String.eqb name ""); simpl; [discriminate|].
  destruct (has_chr slash name); simpl; [discriminate|].
  destruct (String.eqb name "."); [discriminate|].
  intros [= <-]. auto.
Qed.

(** A name made by inserting text between stem and suffix differs from
    the path it is derived from. *)
Lemma derived_path_differs (p mid out : string) :
  with_name p (stem p +:+ mid +:+ suffix p) = Some out ->
  mid <> "" -> out <> p.
Proof.
  intros H Hmid Heq. apply with_name_some in H as [-> _].
  apply (f_equal String.length) in Heq.
  pose proof (f_equal String.length (path_parts p)) as L.
  rewrite !length_app_s in Heq, L.
  destruct mid; [congruence|]. simpl in Heq.
  rewrite length_app_s in Heq. lia.
Qed.

(** ** Extraction: what a call does to the world *)

(** The call, with its steps in sequence written out as one case
    analysis on the file store. *)
Lemma extract_eq (file_path section_name : string) (w : world) :
  extract_sections_from_markdown_file file_path section_name w =
  if has_chr nul file_path
  then print ("File " +:+ file_path +:+ " does not exist.") w
  else
    match files w !! file_path with
    | None => print ("File " +:+ file_path +:+ " does not exist.") w
    | Some content =>
        if negb (String.eqb (suffix file_path) ".md")
        then print ("File " +:+ file_path +:+ " is not a markdown file.") w
        else
          match finditer content with
          | [] => print ("No tab sections found in " +:+ file_path) w
          | _ :: _ =>
              match List.filter (is_target (lower section_name))
                      (finditer content) with
              | [] =>
                  print ("No sections found for '" +:+ section_name
                         +:+ "' in " +:+ file_path) w
              | _ :: _ =>
                  match with_name file_path
                          (extract_name file_path section_name) with
                  | None => (Raised ValueError, w)
                  | Some out =>
                      if has_chr nul out then (Raised ValueError, w)
                      else
                        (Returned (),
                         World (<[out := extract_text section_name content]>
                                  (files w))
                               (stdout w
                                ++ extract_messages section_name out content))
                  end
              end
          end
    end.
Proof.
  unfold extract_sections_from_markdown_file, mbind, M_bind, path_exists,
    read_text.
  fold (extract_name file_path section_name).
  destruct (has_chr nul file_path); simpl; [reflexivity|].
  destruct (files w !! file_path) as [content|] eqn:Hf; simpl;
    [|reflexivity].
  destruct (String.eqb (suffix file_path) ".md"); simpl; [|reflexivity].
  rewrite Hf. unfold extract_text, extract_messages.
  destruct (finditer content) as [|m ms]; [reflexivity|].
  destruct (List.filter _ (m :: ms)) as [|k ks]; [reflexivity|].
  destruct (with_name file_path (extract_name file_path section_name))
    as [out|]; simpl; [|reflexivity].
  unfold write_text. destruct (has_chr nul out); simpl; [reflexivity|].
  unfold print. simpl. rewrite <- app_assoc. reflexivity.
Qed.

(** The call that writes: the input exists, is a markdown file and has
    a section of the requested name, and the output path is accepted. *)
Lemma extract_writes (file_path section_name content out : string) (w : world) :
  has_chr nul file_path = false ->
  files w !! file_path = Some content ->
  suffix file_path = ".md" ->
  List.filter (is_target (lower section_name)) (finditer content) <> [] ->
  with_name file_path (extract_name file_path section_name) = Some out ->
  has_chr nul out = false ->
  extract_sections_from_markdown_file file_path section_name w
  = (Returned (),
     World (<[out := extract_text section_name content]> (files w))
           (stdout w ++ extract_messages section_name out content)).
Proof.
  intros Hnul Hf Hsuf Hkept Hout Hnul'.
  rewrite extract_eq, Hnul, Hf, Hsuf, Hout, Hnul'. simpl.
  destruct (List.filter _ (finditer content)) as [|k ks] eqn:Hk;
    [now destruct Hkept|].
  destruct (finditer content); [discriminate|]. reflexivity.
Qed.

(** Every call either leaves the files as they are or is the writing
    call above. *)
Lemma extract_cases (file_path section_name : string) (w : world) :
  files (snd (extract_sections_from_markdown_file file_path section_name w))
  = files w
  \/ exists content out,
       has_chr nul file_path = false
       /\ files w !! file_path = Some content
       /\ suffix file_path = ".md"
       /\ List.filter (is_target (lower section_name)) (finditer content) <> []
       /\ with_name file_path (extract_name file_path section_name) = Some out
       /\ has_chr nul out = false.
Proof.
  rewrite extract_eq.
  destruct (has_chr nul file_path) eqn:Hnul; [left; reflexivity|].
  destruct (files w !! file_path) as [content|] eqn:Hf; [|left; reflexivity].
  destruct (String.eqb_spec (suffix file_path) ".md") as [Hsuf|Hsuf];
    simpl; [|left; reflexivity].
  destruct (finditer content) as [|m ms] eqn:Hm; [left; reflexivity|].
  destruct (List.filter _ (m :: ms)) as [|k ks] eqn:Hk; [left; reflexivity|].
  destruct (with_name file_path (extract_name file_path section_name))
    as [out|] eqn:Hout; [|left; reflexivity].
  destruct (has_chr nul out) eqn:Hnul'; [left; reflexivity|].
  right. exists content, out. repeat split; auto. congruence.
Qed.

Lemma filter_none (target : string) (matches : list tab_match) :
  (forall m, In m matches -> lower (tab_name m) <> target) ->
  List.filter (is_target target) matches = [].
Proof.
  induction matches as [|m ms IH]; intros H; simpl; [reflexivity|].
  unfold is_target at 1.
  destruct (String.eqb_spec (lower (tab_name m)) target) as [E|_].
  - exfalso. apply (H m); [now left|exact E].
  - apply IH. intros m' Hm'. apply H. now right.
Qed.

(** C4: when the input path is missing, or its extension is not [.md],
    or the document has no tab section, or none of its sections has the
    requested name, the call prints one report and returns; the file
    store is as before. *)
Theorem extract_no_write_on_error (file_path section_name : string) (w : world) :
  no_write_condition file_path section_name w ->
  exists msg,
    In msg (extract_reports file_path section_name)
    /\ extract_sections_from_markdown_file file_path section_name w
       = (Returned (), World (files w) (stdout w ++ [msg])).
Proof.
  intros H. rewrite extract_eq. unfold extract_reports.
  destruct (has_chr nul file_path);
    [eexists; split; [left; reflexivity|reflexivity]|].
  destruct (files w !! file_path) as [content|] eqn:Hf;
    [|eexists; split; [left; reflexivity|reflexivity]].
  destruct (String.eqb_spec (suffix file_path) ".md") as [Hsuf|Hsuf]; simpl;
    [|eexists; split; [right; left; reflexivity|reflexivity]].
  destruct H as [H|[H|[(c & Hc & H)|(c & Hc & H)]]];
    [congruence|contradiction| |].
  - assert (c = content) as -> by congruence. rewrite H.
    eexists; split; [right; right; left; reflexivity|reflexivity].
  - assert (c = content) as -> by congruence.
    destruct (finditer content) as [|m ms] eqn:Hm;
      [eexists; split; [right; right; left; reflexivity|reflexivity]|].
    rewrite (filter_none _ _ H).
    eexists; split; [right; right; right; left; reflexivity|reflexivity].
Qed.

(** A document without tab sections: the third condition at work. *)
Lemma extract_no_write_on_error_witness :
  let w := World {[ "guide.md" := ln "# Title" ]} [] in
  no_write_condition "guide.md" "sql" w
  /\ exists msg,
       In msg (extract_reports "guide.md" "sql")
       /\ extract_sections_from_markdown_file "guide.md" "sql" w
          = (Returned (), World (files w) (stdout w ++ [msg])).
Proof.
  intros w.
  assert (C : no_write_condition "guide.md" "sql" w).
  { right; right; left. exists (ln "# Title"). split; reflexivity. }
  split; [exact C|exact (extract_no_write_on_error _ _ _ C)].
Defined.

(** C10: whatever the call does, the input file reads as before; and
    either no file is touched at all, or exactly one path, different
    from the input path, is written. *)
Theorem extract_input_untouched (file_path section_name : string) (w : world) :
  let w' := snd (extract_sections_from_markdown_file file_path section_name w) in
  files w' !! file_path = files w !! file_path
  /\ (files w' = files w
      \/ exists out text,
           out <> file_path /\ files w' = <[out := text]> (files w)).
Proof.
  intros w'. subst w'.
  destruct (extract_cases file_path section_name w)
    as [E|(content & out & Hnul & Hf & Hsuf & Hkept & Hout & Hnul')].
  - rewrite E. split; [reflexivity|now left].
  - rewrite (extract_writes _ _ _ _ _ Hnul Hf Hsuf Hkept Hout Hnul'). simpl.
    assert (Hne : out <> file_path).
    { apply (derived_path_differs file_path ("-" +:+ lower section_name)).
      - exact Hout.
      - discriminate. }
    split.
    + now rewrite lookup_insert_ne.
    + right. exists out, (extract_text section_name content). now split.
Qed.

Lemma path_name_no_slash (p : string) : has_chr slash (path_name p) = false.
Proof.
  unfold path_name. induction p as [|c t IH]; simpl; [reflexivity|].
  destruct (path_split t) as [d n]; simpl in *.
  destruct d; simpl.
  - destruct (Ascii.eqb c slash) eqn:E; simpl; [exact IH|].
    now rewrite E.
  - exact IH.
Qed.

Lemma stem_no_slash (p : string) : has_chr slash (stem p) = false.
Proof.
  pose proof (path_name_no_slash p) as H.
  rewrite <- stem_suffix, has_chr_app in H.
  now apply orb_false_elim in H.
Qed.

Lemma suffix_md_has_name (p : string) :
  suffix p = ".md" -> snd (path_split p) <> "".
Proof.
  unfold suffix, path_name. intros H E. rewrite E in H. discriminate.
Qed.

Lemma valid_section_lower (section_name : string) :
  In section_name valid_sections ->
  lower section_name = section_name
  /\ has_chr slash section_name = false
  /\ has_chr nul section_name = false.
Proof.
  intros [<-|[<-|[<-|[<-|[]]]]]; repeat split; reflexivity.
Qed.

Lemma with_name_extract (file_path section_name : string) :
  suffix file_path = ".md" ->
  has_chr slash (lower section_name) = false ->
  with_name file_path (extract_name file_path section_name)
  = Some (extract_path file_path (lower section_name)).
Proof.
  intros Hsuf Hslash. pose proof (suffix_md_has_name _ Hsuf) as Hn.
  unfold with_name, extract_path, extract_name. rewrite Hsuf.
  destruct (path_split file_path) as [d n] eqn:Hsplit; simpl in *.
  destruct (String.eqb_spec n "") as [E|_]; [contradiction|].
  set (name := stem file_path +:+ String "-" (lower section_name +:+ ".md")).
  assert (L : 2 <= String.length name).
  { unfold name. rewrite length_app_s. simpl. rewrite length_app_s. simpl. lia. }
  destruct (String.eqb_spec name "") as [E|_];
    [rewrite E in L; simpl in L; lia|].
  destruct (String.eqb_spec name ".") as [E|_];
    [rewrite E in L; simpl in L; lia|].
  assert (S : has_chr slash name = false).
  { unfold name. rewrite has_chr_app, stem_no_slash. simpl.
    rewrite has_chr_app, Hslash. reflexivity. }
  rewrite S. reflexivity.
Qed.

Lemma extract_path_no_nul (file_path section_name : string) :
  has_chr nul file_path = false ->
  has_chr nul section_name = false ->
  has_chr nul (extract_path file_path section_name) = false.
Proof.
  intros Hp Hs. rewrite <- (path_parts file_path) in Hp.
  rewrite !has_chr_app in Hp.
  apply orb_false_elim in Hp as [Hd Hp].
  apply orb_false_elim in Hp as [Hst _].
  unfold extract_path. rewrite has_chr_app, Hd, has_chr_app, Hst. simpl.
  rewrite has_chr_app, Hs. reflexivity.
Qed.

(** C8 as stated fails for a valid name that is not in lower case: the
    entry point accepts PANDAS and the call succeeds, but nothing is
    written at the path made with the name as given; the text is at the
    path made with the lowered name. *)
Lemma extract_output_path_not_as_given :
  let content := tabline "pandas" +:+ ln "    df.sum()"
                 +:+ tabline "polars" +:+ ln "    df.sum()" in
  let w := World {[ "docs/guide.md" := content ]} [] in
  let r := extract_sections_from_markdown_file_cli
             ["extract-sections"; "docs/guide.md"; "PANDAS"] w in
  fst r = Returned ()
  /\ files (snd r) !! "docs/guide-PANDAS.md" = None
  /\ files (snd r) !! "docs/guide-pandas.md"
     = Some (tabline "pandas" +:+ ln "    df.sum()").
Proof. repeat split; reflexivity. Qed.

(** C8, amended: for a section name whose lower-case form is one of the
    four valid names, a call that finds its input (a markdown file
    holding a section of that name) returns after writing the text to
    the sibling path made of the stem, a dash, the section name in lower
    case and the extension; whatever was stored at that path is
    replaced. *)
Theorem extract_output_path (file_path section_name content : string)
    (w : world) :
  In (lower section_name) valid_sections ->
  has_chr nul file_path = false ->
  files w !! file_path = Some content ->
  suffix file_path = ".md" ->
  List.filter (is_target (lower section_name)) (finditer content) <> [] ->
  let out := extract_path file_path (lower section_name) in
  let r := extract_sections_from_markdown_file file_path section_name w in
  fst r = Returned ()
  /\ files (snd r) = <[out := extract_text section_name content]> (files w)
  /\ files (snd r) !! out = Some (extract_text section_name content)
  /\ out = fst (path_split file_path) +:+ stem file_path +:+ "-"
           +:+ lower section_name +:+ suffix file_path.
Proof.
  intros Hvalid Hnul Hf Hsuf Hkept out r. subst out r.
  destruct (valid_section_lower _ Hvalid) as (_ & Hslash & Hnul').
  pose proof (with_name_extract file_path section_name Hsuf Hslash) as Hout.
  rewrite (extract_writes _ _ _ _ _ Hnul Hf Hsuf Hkept Hout
             (extract_path_no_nul _ _ Hnul Hnul')).
  simpl. repeat split.
  - apply lookup_insert_eq.
  - unfold extract_path. now rewrite Hsuf.
Qed.

(** The scenario of the specification, the name given with a capital:
    the pandas section of a two-section document goes to
    [guide-pandas.md], replacing what was there. *)
Lemma extract_output_path_witness :
  let content := tabline "pandas" +:+ ln "    df.sum()"
                 +:+ tabline "polars" +:+ ln "    df.sum()" in
  let w := World {[ "docs/guide.md" := content;
                    "docs/guide-pandas.md" := ln "old" ]} [] in
  let r := extract_sections_from_markdown_file "docs/guide.md" "Pandas" w in
  fst r = Returned ()
  /\ files (snd r)
     = <["docs/guide-pandas.md" := extract_text "Pandas" content]> (files w)
  /\ files (snd r) !! "docs/guide-pandas.md"
     = Some (tabline "pandas" +:+ ln "    df.sum()").
Proof.
  intros content w r.
  destruct (extract_output_path "docs/guide.md" "Pandas" content w)
    as (H1 & H2 & H3 & _).
  - left. reflexivity.
  - reflexivity.
  - reflexivity.
  - reflexivity.
  - discriminate.
  - split; [exact H1|split; [exact H2|exact H3]].
Defined.

(** ** Runs of line feeds *)

Lemma sub_newlines_leading (s : string) (k : nat) :
  leading_newlines (sub_newlines_from k s) <= 3 - k.
Proof.
  revert k. induction s as [|c t IH]; intros k; simpl; [lia|].
  destruct (is_newline c) eqn:Ec.
  - destruct (Nat.ltb_spec k 3) as [Hk|Hk]; simpl.
    + rewrite Ec. specialize (IH (S k)). lia.
    + specialize (IH (S k)). lia.
  - simpl. rewrite Ec. lia.
Qed.

Lemma leading_nl4 (b : string) : 4 <= leading_newlines (nl4 +:+ b).
Proof. simpl. lia. Qed.

(** No text that [re.sub] returns holds four line feeds in a row. *)
Lemma sub_newlines_no_run (s : string) (k : nat) (a b : string) :
  sub_newlines_from k s <> a +:+ nl4 +:+ b.
Proof.
  revert k a. induction s as [|c t IH]; intros k a H.
  - destruct a; discriminate.
  - destruct a as [|x a].
    + pose proof (sub_newlines_leading (String c t) k) as L.
      rewrite H in L. pose proof (leading_nl4 b). simpl in *. lia.
    + simpl in H. destruct (is_newline c).
      * destruct (k <? 3).
        -- injection H as _ H. exact (IH _ _ H).
        -- exact (IH (S k) (String x a) H).
      * injection H as _ H. exact (IH _ _ H).
Qed.

(** After a character that is not a line feed the count starts anew. *)
Lemma sub_newlines_app (p s : string) (k : nat) :
  p <> "" -> last_is_newline p = false ->
  sub_newlines_from k (p +:+ s)
  = sub_newlines_from k p +:+ sub_newlines_from 0 s.
Proof.
  revert k. induction p as [|c p IH]; intros k Hne Hlast; [congruence|].
  destruct p as [|c' p'].
  - simpl in *. rewrite Hlast. reflexivity.
  - assert (Hp : String c' p' <> "") by discriminate.
    change (last_is_newline (String c' p') = false) in Hlast.
    change (String c (String c' p') +:+ s) with (String c (String c' p' +:+ s)).
    cbn [sub_newlines_from].
    destruct (is_newline c).
    + destruct (k <? 3); rewrite (IH _ Hp Hlast); reflexivity.
    + rewrite (IH _ Hp Hlast). reflexivity.
Qed.

(** A run of line feeds that ends before [b] is cut to what is left of
    three. *)
Lemma sub_newlines_run (n k : nat) (b : string) :
  leading_newlines b = 0 ->
  sub_newlines_from k (repeat_chr newline n +:+ b)
  = repeat_chr newline (Nat.min n (3 - k)) +:+ sub_newlines_from 0 b.
Proof.
  intros Hb. revert k. induction n as [|n IH]; intros k.
  - simpl. destruct b as [|c t]; [reflexivity|].
    simpl in *. destruct (is_newline c); [discriminate|reflexivity].
  - change (repeat_chr newline (S n) +:+ b)
      with (String newline (repeat_chr newline n +:+ b)).
    cbn [sub_newlines_from]. change (is_newline newline) with true. cbv iota.
    destruct (Nat.ltb_spec k 3) as [Hk|Hk]; rewrite IH.
    + replace (Nat.min (S n) (3 - k)) with (S (Nat.min n (3 - S k))) by lia.
      reflexivity.
    + replace (Nat.min (S n) (3 - k)) with 0 by lia.
      replace (Nat.min n (3 - S k)) with 0 by lia. reflexivity.
Qed.

(** A run of four or more line feeds between [a] and [b] comes out as
    three. *)
Lemma sub_newlines_collapse (a b : string) (n : nat) :
  last_is_newline a = false -> leading_newlines b = 0 -> 4 <= n ->
  sub_newlines (a +:+ repeat_chr newline n +:+ b)
  = sub_newlines a +:+ repeat_chr newline 3 +:+ sub_newlines b.
Proof.
  intros Ha Hb Hn. unfold sub_newlines.
  assert (R : sub_newlines_from 0 (repeat_chr newline n +:+ b)
              = repeat_chr newline 3 +:+ sub_newlines_from 0 b).
  { rewrite (sub_newlines_run n 0 b Hb).
    replace (Nat.min n (3 - 0)) with 3 by lia. reflexivity. }
  destruct a as [|c a].
  - simpl ("" +:+ _). exact R.
  - rewrite sub_newlines_app by (discriminate || exact Ha).
    now rewrite R.
Qed.

(** C5: a call either writes nothing or writes a text without four
    line feeds in a row; every run of four or more line feeds that the
    removal of sections leaves (or that was in the input) comes out as
    exactly three. *)
Theorem extract_output_newline_runs (file_path section_name : string)
    (w : world) :
  let w' := snd (extract_sections_from_markdown_file file_path section_name w) in
  files w' = files w
  \/ exists out content,
       files w !! file_path = Some content
       /\ files w' = <[out := extract_text section_name content]> (files w)
       /\ (forall a b, extract_text section_name content <> a +:+ nl4 +:+ b)
       /\ (forall a b n,
             remove_sections (lower section_name) (finditer content) content
             = a +:+ repeat_chr newline n +:+ b ->
             last_is_newline a = false -> leading_newlines b = 0 -> 4 <= n ->
             extract_text section_name content
             = sub_newlines a +:+ repeat_chr newline 3 +:+ sub_newlines b).
Proof.
  intros w'. subst w'.
  destruct (extract_cases file_path section_name w)
    as [E|(content & out & Hnul & Hf & Hsuf & Hkept & Hout & Hnul')];
    [now left|right].
  exists out, content.
  rewrite (extract_writes _ _ _ _ _ Hnul Hf Hsuf Hkept Hout Hnul'). simpl.
  repeat split; [exact Hf| |].
  - intros a b. apply sub_newlines_no_run.
  - intros a b n H Ha Hb Hn. unfold extract_text. rewrite H.
    now apply sub_newlines_collapse.
Qed.

Lemma extract_output_newline_runs_witness :
  let w := World {[ "guide.md" := spaced_document ]} [] in
  let w' := snd (extract_sections_from_markdown_file "guide.md" "pandas" w) in
  files w' !! "guide-pandas.md"
  = Some (tabline "pandas" +:+ ln "    df.sum()" +:+ "intro"
          +:+ repeat_chr newline 3 +:+ "outro" +:+ nl)
  /\ forall a b,
       extract_text "pandas" spaced_document <> a +:+ nl4 +:+ b.
Proof.
  intros w w'. split; [reflexivity|].
  destruct (extract_output_newline_runs "guide.md" "pandas" w)
    as [E|(out & content & Hf & _ & Hno & _)].
  - apply (f_equal (fun m => m !! "guide-pandas.md")) in E. discriminate E.
  - injection Hf as <-. exact Hno.
Defined.

(** ** The reformatting loop: lines that pass unchanged *)

Lemma rstrip_cons (c : ascii) (t : string) :
  isspace c = false -> rstrip (String c t) = String c (rstrip t).
Proof. intros H. simpl. rewrite H. now destruct (rstrip t). Qed.

(** The line that opens a short-alias fence still starts with a fence
    once its tag is rewritten. *)
Lemma fence_kept (line : string) :
  startswith line fence_py = true ->
  startswith (strip (replace fence_py fence_python line)) fence = true.
Proof.
  unfold replace, fence_py, fence_python, fence. intros H.
  destruct line as [|c t]; [discriminate|].
  cbn [replace_from]. rewrite H.
  set (r := replace_from _ _ _ _).
  change ("```python" +:+ r)
    with (String "`" (String "`" (String "`" ("python" +:+ r)))).
  unfold strip.
  change (lstrip (String "`" (String "`" (String "`" ("python" +:+ r)))))
    with (String "`" (String "`" (String "`" ("python" +:+ r)))).
  rewrite !rstrip_cons by reflexivity. reflexivity.
Qed.


(** Outside a tab block a plain line is written back as it is. *)
Lemma reformat_line_plain (h line : string) :
  plain_line line = true ->
  reformat_line h initial_state line = Returned (line, initial_state).
Proof.
  unfold plain_line, reformat_line. intros H.
  apply andb_true_iff in H as [H H3]. apply andb_true_iff in H as [H1 H2].
  apply negb_true_iff in H1, H2, H3.
  destruct (String.length (strip line) =? 0); [reflexivity|].
  unfold initial_state. cbn [in_tab_block in_code_block].
  cbv beta iota zeta. rewrite H1. cbv beta iota zeta. rewrite H2.
  cbv beta iota zeta. cbn [negb]. rewrite H3. reflexivity.
Qed.

Lemma reformat_lines_plain (h : string) (lines : list string) :
  forallb plain_line lines = true ->
  reformat_lines h initial_state lines = Returned lines.
Proof.
  induction lines as [|l r IH]; simpl; [reflexivity|].
  intros H. apply andb_true_iff in H as [Hl Hr].
  now rewrite (reformat_line_plain h l Hl), (IH Hr).
Qed.

Lemma join_cons (x : string) (l : list string) :
  join "" (x :: l) = x +:+ join "" l.
Proof.
  destruct l; simpl; [now rewrite app_empty_r|reflexivity].
Qed.

(** Writing the lines that were read gives the text back. *)
Lemma writelines_readlines (s : string) : writelines (readlines s) = s.
Proof.
  unfold writelines. induction s as [|c t IH]; [reflexivity|].
  cbn [readlines]. destruct (is_newline c).
  - rewrite join_cons, IH. reflexivity.
  - destruct (readlines t) as [|l r].
    + simpl in IH. subst t. reflexivity.
    + rewrite join_cons in *. simpl. now rewrite IH.
Qed.

Section Reformat.

Variable subprocess_run : list string -> world -> completed.

(** C7, amended: when no line of the text that [reformat_file] reads
    starts with three equal signs, opens a short-alias fence or holds
    the include marker, the text written to the derived path is the
    text read. *)
Theorem reformat_plain_document_unchanged
    (file_path header out content : string) (w w1 : world) :
  has_chr nul file_path = false ->
  is_Some (files w !! file_path) ->
  with_name file_path (stem file_path +:+ "-r" +:+ suffix file_path)
  = Some out ->
  has_chr nul out = false ->
  formatted subprocess_run file_path w = Some w1 ->
  files w1 !! file_path = Some content ->
  forallb plain_line (readlines content) = true ->
  reformat_file subprocess_run file_path header w
  = (Returned (Some out),
     World (<[out := content]> (files w1))
           (stdout w1 ++ ["Reformatted file written to: " +:+ out])).
Proof.
  intros Hnul Hex Hout Hnul' Hfmt Hf Hplain.
  rewrite reformat_file_eq, Hnul, (bool_decide_eq_true_2 _ Hex), Hout.
  cbn [negb andb]. unfold formatted in Hfmt.
  destruct (subprocess_run _ _) as [returncode w1'|]; [|discriminate].
  destruct (Z.eqb returncode 0); [|discriminate].
  injection Hfmt as ->.
  rewrite Hf, (reformat_lines_plain header _ Hplain), Hnul'.
  rewrite writelines_readlines. reflexivity.
Qed.

End Reformat.

Lemma reformat_plain_document_unchanged_witness :
  let content := ln "# Guide" +:+ ln "```python" +:+ ln "x = 1" +:+ ln "```" in
  let w := World {[ "docs/guide.md" := content ]} [] in
  reformat_file idle_formatter "docs/guide.md" "h3" w
  = (Returned (Some "docs/guide-r.md"),
     World (<["docs/guide-r.md" := content]> (files w))
           [formatter_notice "docs/guide.md";
            "Reformatted file written to: docs/guide-r.md"]).
Proof.
  intros content w.
  apply (reformat_plain_document_unchanged idle_formatter
           "docs/guide.md" "h3" "docs/guide-r.md" content w
           (World (files w) [formatter_notice "docs/guide.md"])).
  - reflexivity.
  - exists content. reflexivity.
  - reflexivity.
  - reflexivity.
  - reflexivity.
  - reflexivity.
  - reflexivity.
Defined.

(** C7 as stated fails: both documents are flat, yet the include line
    of the first is blanked and the indented line of the second loses
    its indentation, because its underline starts with three equal
    signs. *)
Lemma reformat_flat_document_changed :
  (flat_document include_document = true
   /\ reformat_lines "h3" initial_state (readlines include_document)
      = Returned [ln "# Guide"; ""; ln "Text."]
   /\ files (snd (reformat_file idle_formatter "guide.md" "h3"
                    (World {[ "guide.md" := include_document ]} [])))
      !! "guide-r.md"
      = Some (ln "# Guide" +:+ ln "Text.")
   /\ ln "# Guide" +:+ ln "Text." <> include_document)
  /\ (flat_document underlined_document = true
      /\ files (snd (reformat_file idle_formatter "guide.md" "h3"
                       (World {[ "guide.md" := underlined_document ]} [])))
         !! "guide-r.md"
         = Some (ln "Guide" +:+ ln "=====" +:+ ln "indented")
      /\ ln "Guide" +:+ ln "=====" +:+ ln "indented" <> underlined_document).
Proof.
  repeat split; try reflexivity; discriminate.
Qed.

(** ** The reformatting loop: a tab line and its body *)






(** Inside a tab block an indented line of content loses its indent,
    and nothing else. *)
Lemma reformat_line_body (h a : string) :
  content_line a = true ->
  reformat_line h (ScanState false true) (indent +:+ a)
  = Returned (a, ScanState false true).
Proof.
  unfold content_line, blank_line, plain_line, reformat_line. intros H.
  apply andb_true_iff in H as [H0 H]. apply andb_true_iff in H as [H H3].
  apply andb_true_iff in H as [H1 H2].
  apply negb_true_iff in H0, H1, H2, H3.
  change (strip (indent +:+ a)) with (strip a). rewrite H0.
  cbn [in_tab_block in_code_block].
  change (startswith (indent +:+ a) "    ") with true.
  change (drop_chars 4 (indent +:+ a)) with a.
  cbv beta iota zeta. rewrite H1. cbv beta iota zeta. rewrite H2.
  cbv beta iota zeta. cbn [negb]. rewrite H3. reflexivity.
Qed.





(** ** The document as matches and the text between them *)

Lemma finditer_scan (s : string) :
  forall skip bol, finditer_from skip bol s = tabs (scan_from skip bol s).
Proof.
  induction s as [|c t IH]; intros skip bol; simpl; [reflexivity|].
  destruct skip as [|k]; [|apply IH].
  destruct (if bol then match_tab (String c t) else None) as [m|]; simpl;
    now rewrite IH.
Qed.

Lemma strip_prefix_app (p s r : string) :
  strip_prefix p s = Some r -> s = p +:+ r.
Proof.
  revert s. induction p as [|a p IH]; intros s H; simpl in *.
  - congruence.
  - destruct s as [|b s]; [discriminate|].
    destruct (Ascii.eqb_spec a b) as [->|_]; [|discriminate].
    now rewrite (IH _ H).
Qed.

Lemma span_app (f : ascii -> bool) (s : string) :
  s = fst (span f s) +:+ snd (span f s).
Proof.
  induction s as [|c t IH]; simpl; [reflexivity|].
  destruct (f c); [|reflexivity].
  destruct (span f t) as [a b]; simpl in *. now rewrite <- IH.
Qed.

Lemma spaces_then_newline_app (s m r : string) :
  spaces_then_newline s = Some (m, r) -> s = m +:+ r.
Proof.
  revert m r. induction s as [|c t IH]; intros m r H; simpl in H;
    [discriminate|].
  destruct (isspace c); [|discriminate].
  destruct (spaces_then_newline t) as [[m' r']|].
  - injection H as <- <-. simpl. now rewrite (IH _ _ eq_refl).
  - destruct (is_newline c); [|discriminate]. now injection H as <- <-.
Qed.

Lemma tab_body_app (s : string) :
  forall st, s = fst (tab_body st s) +:+ snd (tab_body st s).
Proof.
  induction s as [|c t IH]; intros st; [reflexivity|].
  assert (T : forall st', String c t
              = fst (let '(m, r) := tab_body st' t in (String c m, r))
                +:+ snd (let '(m, r) := tab_body st' t in (String c m, r))).
  { intros st'. specialize (IH st'). destruct (tab_body st' t) as [m r].
    simpl in *. now rewrite <- IH. }
  destruct st; cbn [tab_body];
    repeat match goal with
           | |- context [if ?b then _ else _] => destruct b
           end; try apply T; reflexivity.
Qed.

Lemma span_stops (f : ascii -> bool) (s a r : string) (c : ascii) :
  span f s = (a, String c r) -> f c = false.
Proof.
  revert a. induction s as [|d t IH]; intros a H; simpl in H;
    [discriminate|].
  destruct (f d) eqn:Hd.
  - destruct (span f t) as [a' b'] eqn:Ht. injection H as <- ->.
    now apply (IH a').
  - injection H as <- <- <-. exact Hd.
Qed.

(** A match is a non-empty prefix of the text it is found in. *)
Lemma match_tab_prefix (s : string) (m : tab_match) :
  match_tab s = Some m ->
  full_match m <> "" /\ exists rest, s = full_match m +:+ rest.
Proof.
  unfold match_tab. intros H.
  destruct (strip_prefix tab_open s) as [s1|] eqn:H1; [|discriminate].
  apply strip_prefix_app in H1.
  pose proof (span_app (fun c => negb (is_dquote c)) s1) as H2.
  destruct (span (fun c => negb (is_dquote c)) s1) as [name s2] eqn:Hs.
  simpl in H2.
  destruct name as [|n name]; [discriminate|].
  destruct s2 as [|c2 s3]; [discriminate|].
  apply span_stops in Hs.
  destruct (spaces_then_newline s3) as [[ws s4]|] eqn:H3; [|discriminate].
  apply spaces_then_newline_app in H3.
  pose proof (tab_body_app s4 AtLineStart) as H4.
  destruct (tab_body AtLineStart s4) as [body rest]. simpl in H4.
  injection H as <-. cbn [full_match]. split; [discriminate|].
  exists rest.
  assert (Hq : c2 = dquote).
  { unfold is_dquote in Hs. apply negb_false_iff in Hs.
    now apply Ascii.eqb_eq in Hs. }
  rewrite H1, H2, H3, H4, Hq. unfold tab_open, q. simpl.
  rewrite app_assoc_s. simpl. now rewrite app_assoc_s.
Qed.

Lemma drop_chars_app (a b : string) :
  drop_chars (String.length a) (a +:+ b) = b.
Proof. induction a; simpl; [now destruct b|assumption]. Qed.

(** The segments of a document, put back together, are the document. *)
Lemma flatten_scan_from (s : string) :
  forall skip bol,
    skip <= String.length s ->
    flatten (scan_from skip bol s) = drop_chars skip s.
Proof.
  induction s as [|c t IH]; intros skip bol Hk.
  - now destruct skip.
  - cbn [scan_from]. destruct skip as [|k].
    + destruct (if bol then match_tab (String c t) else None) as [m|] eqn:Hm.
      * assert (Hm' : match_tab (String c t) = Some m)
          by (destruct bol; [exact Hm|discriminate]).
        apply match_tab_prefix in Hm' as [Hne [rest Hrest]].
        cbn [flatten segment_text drop_chars].
        destruct (full_match m) as [|d fm] eqn:Hfm; [congruence|].
        simpl in Hrest. injection Hrest as <- ->.
        rewrite IH.
        -- simpl. rewrite Nat.sub_0_r, drop_chars_app. reflexivity.
        -- simpl. rewrite Nat.sub_0_r, length_app_s. lia.
      * cbn [flatten segment_text drop_chars]. rewrite IH by lia.
        reflexivity.
    + cbn [drop_chars]. apply IH. simpl in Hk. lia.
Qed.

Lemma flatten_scan (content : string) : flatten (scan content) = content.
Proof. unfold scan. now rewrite flatten_scan_from by lia. Qed.

Lemma flatten_app (a b : list segment) :
  flatten (a ++ b) = flatten a +:+ flatten b.
Proof.
  induction a as [|g a IH]; simpl; [reflexivity|].
  now rewrite IH, app_assoc_s.
Qed.

Lemma tabs_app (a b : list segment) : tabs (a ++ b) = tabs a ++ tabs b.
Proof.
  induction a as [|[c|m] a IH]; simpl; [reflexivity|assumption|].
  now rewrite IH.
Qed.

Lemma startswith_refl_app (p r : string) : startswith (p +:+ r) p = true.
Proof.
  induction p as [|a p IH]; simpl; [reflexivity|].
  now rewrite Ascii.eqb_refl.
Qed.

(** Whether [s] starts with [p] depends on the first [len(p)] characters
    only. *)
Lemma startswith_app (p s r : string) :
  String.length p <= String.length s ->
  startswith (s +:+ r) p = startswith s p.
Proof.
  revert s. induction p as [|a p IH]; intros s H; simpl; [reflexivity|].
  destruct s as [|b s]; simpl in *; [lia|].
  rewrite IH by lia. reflexivity.
Qed.

Lemma replace_first_eq (old new s : string) :
  replace_first old new s =
  if startswith s old then new +:+ drop_chars (String.length old) s
  else match s with
       | "" => ""
       | String c t => String c (replace_first old new t)
       end.
Proof. destruct s; reflexivity. Qed.

Lemma find_eq (sub s : string) :
  find sub s =
  if startswith s sub then Some 0
  else match s with
       | "" => None
       | String _ t => option_map S (find sub t)
       end.
Proof. destruct s; reflexivity. Qed.

(** Removing the leftmost occurrence of [t] removes the one after [p],
    when [find] reports that one; what follows it plays no part. *)
Lemma replace_first_at (t p r0 r : string) :
  find t (p +:+ t +:+ r0) = Some (String.length p) ->
  replace_first t "" (p +:+ t +:+ r) = p +:+ r.
Proof.
  induction p as [|c p IH]; intros H.
  - cbn [String.append]. rewrite replace_first_eq, startswith_refl_app.
    now rewrite drop_chars_app.
  - assert (Hlen : String.length t <= String.length (String c p +:+ t))
      by (rewrite length_app_s; lia).
    rewrite find_eq in H.
    rewrite <- app_assoc_s, startswith_app in H by exact Hlen.
    rewrite replace_first_eq.
    rewrite <- app_assoc_s, startswith_app by exact Hlen.
    destruct (startswith (String c p +:+ t) t); [discriminate|].
    rewrite app_assoc_s in *. cbn [String.append] in *.
    destruct (find t (p +:+ t +:+ r0)) as [n|] eqn:Hf; [|discriminate].
    simpl in H. injection H as ->. now rewrite IH.
Qed.

Lemma leftmost_from_split (target content : string) (segs : list segment) :
  forall offset pre m post,
    leftmost_from target content offset segs = true ->
    segs = pre ++ Tab m :: post ->
    is_target target m = false ->
    find (full_match m) content
    = Some (offset + String.length (flatten pre)).
Proof.
  induction segs as [|g segs IH]; intros offset pre m post H E Hm.
  - now destruct pre.
  - destruct pre as [|g' pre]; simpl in E; injection E as -> E.
    + cbn [leftmost_from] in H. rewrite Hm in H. simpl in H.
      apply andb_prop in H as [H _]. apply bool_decide_eq_true in H.
      rewrite H. simpl. f_equal. lia.
    + destruct g' as [c|m'].
      * cbn [leftmost_from] in H. rewrite (IH _ _ _ _ H E Hm).
        simpl. f_equal. lia.
      * cbn [leftmost_from] in H. apply andb_prop in H as [_ H].
        rewrite (IH _ _ _ _ H E Hm). cbn [flatten segment_text].
        rewrite length_app_s. f_equal. lia.
Qed.

(** The loop over the reversed matches deletes the spans of the matches
    it removes, when each of them is the leftmost occurrence of its
    text. *)
Lemma remove_sections_spans (target content : string) :
  forall segs post tail,
    scan content = segs ++ post ->
    removed_are_leftmost target content = true ->
    fold_left (remove_step target) (rev (tabs segs))
      (flatten segs +:+ tail)
    = flatten (List.filter (stays target) segs) +:+ tail.
Proof.
  induction segs as [|g segs IH] using rev_ind; intros post tail E H.
  - reflexivity.
  - rewrite <- app_assoc in E. pose proof (fun tl => IH _ tl E H) as IH'.
    rewrite tabs_app, List.filter_app, !flatten_app, !app_assoc_s.
    destruct g as [c|m]; cbn [tabs stays List.filter flatten segment_text].
    + rewrite app_nil_r. apply IH'.
    + rewrite rev_app_distr. cbn [rev app fold_left].
      unfold remove_step at 2.
      destruct (is_target target m) eqn:Hm.
      * cbn [flatten segment_text]. rewrite app_empty_r. apply IH'.
      * cbn [flatten]. rewrite app_empty_r.
        pose proof (leftmost_from_split _ _ _ _ _ _ _ H E Hm) as Hf.
        rewrite <- (flatten_scan content) in Hf at 1. rewrite E in Hf.
        rewrite flatten_app in Hf. cbn [flatten segment_text] in Hf.
        rewrite (replace_first_at _ _ _ _ Hf). apply IH'.
Qed.

Lemma remove_sections_delete_spans (target content : string) :
  removed_are_leftmost target content = true ->
  remove_sections target (finditer content) content
  = delete_spans target content.
Proof.
  intros H. unfold remove_sections, delete_spans, finditer.
  rewrite finditer_scan. fold (scan content).
  pose proof (remove_sections_spans target content (scan content) [] ""
                (eq_sym (app_nil_r _)) H) as R.
  now rewrite flatten_scan, !app_empty_r in R.
Qed.

(** A match that stays is in the span-deleted document as it was. *)
Lemma delete_spans_keeps (target content : string) (m : tab_match) :
  In m (finditer content) -> is_target target m = true ->
  exists a b, delete_spans target content = a +:+ full_match m +:+ b.
Proof.
  unfold finditer, delete_spans. rewrite finditer_scan. fold (scan content).
  generalize (scan content) as segs.
  induction segs as [|g segs IH]; intros Hin Hm; [destruct Hin|].
  destruct g as [c|m']; cbn [tabs] in Hin; cbn [List.filter stays].
  - destruct (IH Hin Hm) as (a & b & E).
    exists (String c a), b. cbn [flatten segment_text]. now rewrite E.
  - destruct Hin as [->|Hin].
    + rewrite Hm. exists "", (flatten (List.filter (stays target) segs)).
      reflexivity.
    + destruct (IH Hin Hm) as (a & b & E).
      destruct (is_target target m'); [|now exists a, b].
      exists (full_match m' +:+ a), b. cbn [flatten segment_text].
      now rewrite E, app_assoc_s.
Qed.

Lemma startswith_nl4 (s : string) :
  startswith s nl4 = false -> leading_newlines s <= 3.
Proof.
  destruct s as [|c1 [|c2 [|c3 [|c4 s]]]]; cbn [leading_newlines];
    unfold is_newline;
    repeat match goal with
           | |- context [Ascii.eqb ?c newline] =>
               destruct (Ascii.eqb_spec c newline) as [->|?]
           end; try lia.
  discriminate.
Qed.

(** A text without four line feeds in a row is left as it is. *)
Lemma sub_newlines_id (s : string) :
  forall k,
    k + leading_newlines s <= 3 ->
    contains nl4 s = false ->
    sub_newlines_from k s = s.
Proof.
  induction s as [|c t IH]; intros k Hk Hc; [reflexivity|].
  assert (Hc' : startswith (String c t) nl4 = false /\ contains nl4 t = false).
  { cbn [contains] in Hc. now apply orb_false_elim in Hc. }
  destruct Hc' as [_ Ht].
  cbn [sub_newlines_from leading_newlines] in *.
  destruct (is_newline c).
  - replace (k <? 3) with true by (symmetry; apply Nat.ltb_lt; lia).
    rewrite IH; [reflexivity|lia|exact Ht].
  - rewrite IH; [reflexivity| |exact Ht].
    assert (Hs : startswith t nl4 = false).
    { destruct t; [reflexivity|]. cbn [contains] in Ht.
      now apply orb_false_elim in Ht. }
    apply startswith_nl4 in Hs. lia.
Qed.

(** C1, as stated, does not hold.  Each of the three documents has one
    pandas section.  In the first the body of that section is written
    with three line feeds where it had five.  In the second the text
    written is not the document without the spans of its sql sections:
    the start of the first sql section is deleted in place of the second
    one, whose text stays.  In the third the text of the removed sql
    section is still in the output, where the document had it outside
    the sections. *)
Lemma extract_output_not_span_deletion :
  (pandas_of collapsed_document
   = Some (tabline "pandas" +:+ "    x" +:+ repeat_chr newline 3
           +:+ ln "    y")
   /\ delete_spans "pandas" collapsed_document
      = tabline "pandas" +:+ "    x" +:+ repeat_chr newline 5 +:+ ln "    y")
  /\ (pandas_of repeated_document
      = Some (ln "    b" +:+ tabline "sql" +:+ ln "    a"
              +:+ tabline "pandas" +:+ ln "    c")
      /\ delete_spans "pandas" repeated_document
         = tabline "pandas" +:+ ln "    c"
      /\ map tab_name (finditer repeated_document) = ["sql"; "sql"; "pandas"])
  /\ (pandas_of quoted_document
      = Some (tabline "pandas" +:+ ln "    b"
              +:+ "x" +:+ tabline "sql" +:+ ln "    a")
      /\ finditer quoted_document
         = [TabMatch "sql" (tabline "sql" +:+ ln "    a");
            TabMatch "pandas" (tabline "pandas" +:+ ln "    b")]).
Proof. repeat split; reflexivity. Qed.

(** C1, amended: when every match to remove is the leftmost occurrence
    of its own text in the document, a call that finds its input writes
    the document with the spans of those matches deleted and the runs of
    four or more line feeds then cut to three.  Every match that stays
    is in the span-deleted document as it was, and that document is
    written unchanged when it has no four line feeds in a row. *)
Theorem extract_deletes_removed_spans (file_path section_name content : string)
    (w : world) :
  In section_name valid_sections ->
  has_chr nul file_path = false ->
  files w !! file_path = Some content ->
  suffix file_path = ".md" ->
  List.filter (is_target (lower section_name)) (finditer content) <> [] ->
  removed_are_leftmost (lower section_name) content = true ->
  let out := extract_path file_path section_name in
  let kept := delete_spans (lower section_name) content in
  let r := extract_sections_from_markdown_file file_path section_name w in
  fst r = Returned ()
  /\ files (snd r) = <[out := sub_newlines kept]> (files w)
  /\ (forall m, In m (finditer content) ->
                is_target (lower section_name) m = true ->
                exists a b, kept = a +:+ full_match m +:+ b)
  /\ (contains nl4 kept = false -> files (snd r) !! out = Some kept).
Proof.
  intros Hvalid Hnul Hf Hsuf Hkept Hleft out kept r. subst out kept r.
  destruct (valid_section_lower _ Hvalid) as (Hlow & Hslash & Hnul').
  assert (Hout : with_name file_path (extract_name file_path section_name)
                 = Some (extract_path file_path section_name)).
  { rewrite <- Hlow at 2. apply with_name_extract; [exact Hsuf|].
    now rewrite Hlow. }
  rewrite (extract_writes _ _ _ _ _ Hnul Hf Hsuf Hkept Hout
             (extract_path_no_nul _ _ Hnul Hnul')).
  unfold extract_text. rewrite (remove_sections_delete_spans _ _ Hleft).
  cbn [fst snd files]. repeat split.
  - intros m Hin Hm. now apply delete_spans_keeps.
  - intros Hno. rewrite lookup_insert_eq. f_equal.
    apply sub_newlines_id; [|exact Hno].
    pose proof (startswith_nl4 (delete_spans (lower section_name) content)).
    destruct (delete_spans (lower section_name) content) as [|c t] eqn:E;
      [simpl; lia|].
    cbn [contains] in Hno. apply orb_false_elim in Hno as [Hs _].
    simpl. apply H in Hs. simpl in Hs. lia.
Qed.

(** The scenario of the specification: of the pandas and polars sections
    the pandas one is written, the polars one is not. *)
Lemma extract_deletes_removed_spans_witness :
  let content := tabline "pandas" +:+ ln "    df.sum()"
                 +:+ tabline "polars" +:+ ln "    df.sum()" in
  let w := World {[ "guide.md" := content ]} [] in
  let r := extract_sections_from_markdown_file "guide.md" "pandas" w in
  fst r = Returned ()
  /\ files (snd r) !! "guide-pandas.md"
     = Some (tabline "pandas" +:+ ln "    df.sum()").
Proof.
  intros content w r.
  destruct (extract_deletes_removed_spans "guide.md" "pandas" content w)
    as (H1 & _ & _ & H4).
  - left. reflexivity.
  - reflexivity.
  - reflexivity.
  - reflexivity.
  - discriminate.
  - reflexivity.
  - split; [exact H1|]. exact (H4 eq_refl).
Defined.

(** * Further properties of the code *)

(** ** The entry points of the documentation commands *)

(** The entry points that take a version test for fewer than two
    arguments but read the version at [sys.argv[2]]: started with the
    program name alone they print the usage line and exit with status
    1; started with the program name and one argument they raise
    [IndexError] before any command is run; and with a third argument
    present they run their command with that one as the version. *)
Theorem version_cli_reads_third_argument
    (subprocess_run : list string -> world -> completed)
    (argv : list string) (w : world) :
  Forall (fun '(_, command, cli) =>
            (length argv < 2 -> cli argv w = usage_exit usage_version w)
            /\ (length argv = 2 -> cli argv w = (Raised IndexError, w))
            /\ (forall version, argv !! 2 = Some version ->
                                cli argv w = command version w))
         (version_entry_points subprocess_run).
Proof.
  assert (H2 : length argv = 2 -> argv !! 2 = None /\ (length argv <? 2) = false).
  { intros H. split; [apply lookup_ge_None_2; lia|apply Nat.ltb_ge; lia]. }
  assert (H3 : forall v, argv !! 2 = Some v -> (length argv <? 2) = false).
  { intros v H. apply lookup_lt_Some in H. apply Nat.ltb_ge. lia. }
  unfold version_entry_points.
  repeat apply List.Forall_cons; try apply List.Forall_nil;
    (split; [|split]).
  all: try (intros H; now apply missing_args).
  all: try (intros H; destruct (H2 H) as [E1 E2];
            unfold docs_build_versioned_cli, update_git_docs_cli,
              docs_delete_version_cli, build_static_docs_cli,
              build_versioned_docs_cli, mbind, M_bind;
            rewrite E1, E2; reflexivity).
  all: intros v H; pose proof (H3 v H) as E2;
    unfold docs_build_versioned_cli, update_git_docs_cli,
      docs_delete_version_cli, build_static_docs_cli,
      build_versioned_docs_cli;
    rewrite E2; unfold mbind at 1, M_bind at 1; rewrite H; reflexivity.
Qed.

Lemma version_cli_reads_third_argument_witness :
  let w := World ∅ [] in
  docs_delete_version_cli idle_formatter ["docs-delete-version"] w
  = usage_exit usage_version w
  /\ docs_delete_version_cli idle_formatter ["docs-delete-version"; "1.2.0"] w
     = (Raised IndexError, w)
  /\ docs_delete_version_cli idle_formatter
       ["docs-delete-version"; "1.2.0"; "1.3.0"] w
     = docs_delete_version idle_formatter "1.3.0" w.
Proof.
  intros w.
  pose proof (version_cli_reads_third_argument idle_formatter
                ["docs-delete-version"] w) as A.
  pose proof (version_cli_reads_third_argument idle_formatter
                ["docs-delete-version"; "1.2.0"] w) as B.
  pose proof (version_cli_reads_third_argument idle_formatter
                ["docs-delete-version"; "1.2.0"; "1.3.0"] w) as C.
  apply Forall_cons in A as [_ A]. apply Forall_cons in A as [_ A].
  apply Forall_cons in A as [[A _] _].
  apply Forall_cons in B as [_ B]. apply Forall_cons in B as [_ B].
  apply Forall_cons in B as [[_ [B _]] _].
  apply Forall_cons in C as [_ C]. apply Forall_cons in C as [_ C].
  apply Forall_cons in C as [[_ [_ C]] _].
  split; [apply A; simpl; lia|].
  split; [apply B; reflexivity|apply C; reflexivity].
Defined.

(** ** The entry point of the extraction *)

Lemma chr_lower_idem (c : ascii) : chr_lower (chr_lower c) = chr_lower c.
Proof.
  destruct c as [[] [] [] [] [] [] [] []]; reflexivity.
Qed.

Lemma lower_idem (s : string) : lower (lower s) = lower s.
Proof.
  induction s as [|c t IH]; simpl; [reflexivity|].
  now rewrite chr_lower_idem, IH.
Qed.

(** A section name that, lowered, is none of the four known ones makes
    the entry point print the list of valid names and exit with status
    1; no file is read or written. *)
Theorem extract_cli_invalid_section (argv : list string)
    (file_path section_name : string) (w : world) :
  argv !! 1 = Some file_path ->
  argv !! 2 = Some section_name ->
  ~ In (lower section_name) valid_sections ->
  extract_sections_from_markdown_file_cli argv w
  = usage_exit (invalid_section_notice section_name) w.
Proof.
  intros H1 H2 Hn.
  assert (E : (length argv <? 3) = false).
  { apply lookup_lt_Some in H2. apply Nat.ltb_ge. lia. }
  unfold extract_sections_from_markdown_file_cli. rewrite E.
  unfold mbind at 1, M_bind at 1. rewrite H1. cbn [or_raise mret M_ret].
  unfold mbind at 1, M_bind at 1. rewrite H2. cbn [or_raise mret M_ret].
  rewrite bool_decide_eq_false_2; [reflexivity|].
  intros Hin. apply Hn. apply list_elem_of_In. exact Hin.
Qed.

Lemma extract_cli_invalid_section_witness :
  let w := World {[ "guide.md" := tabline "spark" +:+ ln "    df.show()" ]} [] in
  extract_sections_from_markdown_file_cli
    ["extract-sections"; "guide.md"; "spark"] w
  = (Exited 1,
     World (files w)
       ["Invalid section name 'spark'. Valid options are: pandas, sql, pyspark, polars"]).
Proof.
  intros w.
  apply (extract_cli_invalid_section
           ["extract-sections"; "guide.md"; "spark"] "guide.md" "spark" w).
  - reflexivity.
  - reflexivity.
  - simpl. intros [H|[H|[H|[H|[]]]]]; discriminate H.
Defined.

(** The section name is taken without regard to case: for a name that,
    lowered, is one of the four known ones, the entry point calls the
    extraction, and the files it leaves are those left for the lowered
    name (the output path, too, is made from the lowered name). *)
Theorem extract_cli_section_name_case (prog file_path section_name : string)
    (w : world) :
  In (lower section_name) valid_sections ->
  let r := extract_sections_from_markdown_file_cli
             [prog; file_path; section_name] w in
  r = extract_sections_from_markdown_file file_path section_name w
  /\ fst r = fst (extract_sections_from_markdown_file_cli
                    [prog; file_path; lower section_name] w)
  /\ files (snd r)
     = files (snd (extract_sections_from_markdown_file_cli
                     [prog; file_path; lower section_name] w)).
Proof.
  intros Hin r. subst r.
  assert (C : forall sn, In (lower sn) valid_sections ->
            extract_sections_from_markdown_file_cli [prog; file_path; sn] w
            = extract_sections_from_markdown_file file_path sn w).
  { intros sn H. unfold extract_sections_from_markdown_file_cli.
    cbn [length Nat.ltb Nat.leb].
    unfold mbind at 1, M_bind at 1. cbn [lookup list_lookup or_raise mret M_ret].
    unfold mbind at 1, M_bind at 1. cbn [lookup list_lookup or_raise mret M_ret].
    rewrite bool_decide_eq_true_2; [reflexivity|].
    apply list_elem_of_In. exact H. }
  rewrite (C section_name Hin).
  rewrite (C (lower section_name)) by (now rewrite lower_idem).
  split; [reflexivity|].
  rewrite !extract_eq.
  unfold extract_name, extract_text. rewrite !lower_idem.
  destruct (has_chr nul file_path); [split; reflexivity|].
  destruct (files w !! file_path) as [content|]; [|split; reflexivity].
  destruct (negb (String.eqb (suffix file_path) ".md")); [split; reflexivity|].
  destruct (finditer content) as [|m ms]; [split; reflexivity|].
  destruct (List.filter _ (m :: ms)) as [|k ks]; [split; reflexivity|].
  destruct (with_name _ _) as [out|]; [|split; reflexivity].
  destruct (has_chr nul out); split; reflexivity.
Qed.

Lemma extract_cli_section_name_case_witness :
  let w := World {[ "guide.md" := tabline "Pandas" +:+ ln "    df.sum()"
                                  +:+ tabline "SQL" +:+ ln "    select 1" ]} [] in
  files (snd (extract_sections_from_markdown_file_cli
                ["extract-sections"; "guide.md"; "PANDAS"] w))
  = files (snd (extract_sections_from_markdown_file_cli
                  ["extract-sections"; "guide.md"; "pandas"] w))
  /\ files (snd (extract_sections_from_markdown_file_cli
                   ["extract-sections"; "guide.md"; "PANDAS"] w))
     !! "guide-pandas.md"
     = Some (tabline "Pandas" +:+ ln "    df.sum()").
Proof.
  intros w. split; [|reflexivity].
  apply (extract_cli_section_name_case "extract-sections" "guide.md" "PANDAS" w).
  left. reflexivity.
Defined.

(** ** Command lines: [expand_space] *)

Lemma has_space_app (a b : string) :
  has_space (a +:+ b) = has_space a || has_space b.
Proof.
  induction a as [|c a IH]; simpl; [reflexivity|].
  now rewrite IH, orb_assoc.
Qed.

Lemma rev_app_app (s a b : string) :
  String.rev_app s (a +:+ b) = String.rev_app s a +:+ b.
Proof.
  revert a. induction s as [|c s IH]; intros a; [reflexivity|].
  exact (IH (String c a)).
Qed.

Lemma rev_cons (c : ascii) (w : string) :
  String.rev (String c w) = String.rev w +:+ String c "".
Proof. exact (rev_app_app w "" (String c "")). Qed.

Lemma rev_is_word (c : ascii) (w : string) :
  isspace c = false -> has_space w = false ->
  has_space (String.rev w) = false ->
  is_word (String.rev (String c w)) = true.
Proof.
  intros Hc Hw Hr. unfold is_word.
  rewrite rev_cons, has_space_app, Hr. simpl. rewrite Hc. simpl.
  destruct (String.rev w); reflexivity.
Qed.

Lemma has_space_rev (w : string) : has_space (String.rev w) = has_space w.
Proof.
  induction w as [|c w IH]; [reflexivity|].
  rewrite rev_cons, has_space_app, IH. simpl. rewrite orb_false_r. apply orb_comm.
Qed.

Lemma split_go_words (s : string) :
  forall cur,
    (forall w, cur = Some w -> is_word (String.rev w) = true) ->
    Forall (fun x => is_word x = true) (split_go cur s).
Proof.
  induction s as [|c t IH]; intros cur Hcur.
  - destruct cur as [w|]; simpl; [|constructor].
    constructor; [now apply Hcur|constructor].
  - cbn [split_go]. destruct (isspace c) eqn:Hc.
    + destruct cur as [w|]; [constructor; [now apply Hcur|]|];
        apply IH; discriminate.
    + apply IH. intros w [= <-].
      assert (Hd : has_space (default "" cur) = false).
      { destruct cur as [w|]; [|reflexivity]. simpl.
        specialize (Hcur w eq_refl). unfold is_word in Hcur.
        apply andb_prop in Hcur as [_ Hcur].
        rewrite has_space_rev in Hcur. now apply negb_true_iff in Hcur. }
      apply rev_is_word; [exact Hc|exact Hd|now rewrite has_space_rev].
Qed.

Lemma split_go_word (x : string) :
  has_space x = false ->
  forall w, split_go (Some w) x = [String.rev w +:+ x].
Proof.
  induction x as [|c t IH]; intros Hx w.
  - simpl. now rewrite app_empty_r.
  - simpl in Hx. apply orb_false_elim in Hx as [Hc Ht].
    cbn [split_go]. rewrite Hc. cbn [default from_option].
    rewrite (IH Ht), rev_cons. now rewrite app_assoc_s.
Qed.

Lemma split_ws_word (x : string) : is_word x = true -> split_ws x = [x].
Proof.
  unfold is_word, split_ws. intros H. apply andb_prop in H as [Hne Hx].
  apply negb_true_iff in Hx.
  destruct x as [|c t]; [discriminate|].
  simpl in Hx. apply orb_false_elim in Hx as [Hc Ht].
  cbn [split_go]. rewrite Hc. cbn [default from_option].
  now rewrite (split_go_word t Ht).
Qed.

Lemma expand_space_all_words (lst : list string) :
  Forall (fun x => is_word x = true) (expand_space lst).
Proof.
  unfold expand_space. induction lst as [|x lst IH]; simpl; [constructor|].
  apply Forall_app. split; [|exact IH].
  apply split_go_words. discriminate.
Qed.

Lemma expand_space_fixes_words (lst : list string) :
  forallb is_word lst = true -> expand_space lst = lst.
Proof.
  unfold expand_space. induction lst as [|x lst IH]; simpl; [reflexivity|].
  intros H. apply andb_prop in H as [Hx Hl].
  now rewrite (split_ws_word x Hx), (IH Hl).
Qed.

(** Every argument that [expand_space] returns is a word: it is not
    empty and holds no space character.  So an empty argument, or one
    of spaces only, is dropped from the command line. *)
Theorem expand_space_gives_words (lst : list string) :
  Forall (fun x => is_word x = true) (expand_space lst)
  /\ expand_space ("" :: lst) = expand_space lst
  /\ expand_space (" " :: lst) = expand_space lst.
Proof.
  split; [apply expand_space_all_words|split; reflexivity].
Qed.

(** A command line given as words is passed on as it is. *)
Theorem expand_space_keeps_words (lst : list string) :
  forallb is_word lst = true -> expand_space lst = lst.
Proof. apply expand_space_fixes_words. Qed.

Lemma expand_space_keeps_words_witness :
  expand_space ["black"; "--config=pyproject.toml"; "./"]
  = ["black"; "--config=pyproject.toml"; "./"].
Proof.
  apply (expand_space_keeps_words ["black"; "--config=pyproject.toml"; "./"]).
  reflexivity.
Defined.

(** Expanding twice is expanding once, and expanding a command line
    given in pieces is expanding the pieces. *)
Theorem expand_space_idempotent (a b : list string) :
  expand_space (expand_space a) = expand_space a
  /\ expand_space (a ++ b) = expand_space a ++ expand_space b.
Proof.
  split.
  - apply expand_space_fixes_words. apply forallb_forall.
    pose proof (expand_space_all_words a) as H.
    rewrite List.Forall_forall in H. exact H.
  - unfold expand_space. now rewrite map_app, concat_app.
Qed.

(** ** The reformatting loop and the header style *)

Lemma reformat_line_marker (h h' : string) (st : scan_state) (line : string) :
  header_marker h = header_marker h' ->
  reformat_line h st line = reformat_line h' st line.
Proof. unfold reformat_line. now intros ->. Qed.

Lemma reformat_lines_marker (h h' : string) (lines : list string) :
  header_marker h = header_marker h' ->
  forall st, reformat_lines h st lines = reformat_lines h' st lines.
Proof.
  intros E. induction lines as [|l r IH]; intros st; simpl; [reflexivity|].
  rewrite (reformat_line_marker h h' st l E).
  destruct (reformat_line h' st l) as [[l' st']|c|e]; [|reflexivity..].
  now rewrite IH.
Qed.

Lemma reformat_line_returns (h m : string) (st : scan_state) (line : string) :
  header_marker h = Returned m ->
  exists line' st', reformat_line h st line = Returned (line', st').
Proof.
  intros E. unfold reformat_line. rewrite E.
  destruct (String.length (strip line) =? 0); [eauto|].
  destruct (if in_tab_block st
            then if startswith line "    "
                 then (drop_chars 4 line, true) else (line, false)
            else (line, false)) as [l1 tab1].
  destruct (startswith l1 "==="); cbv beta iota zeta;
    match goal with
    | |- context [if ?b then (_, true) else (?l, _)] => destruct b
    end; eauto.
Qed.

Lemma reformat_lines_returns (h m : string) (lines : list string) :
  header_marker h = Returned m ->
  forall st, exists out,
    reformat_lines h st lines = Returned out /\ length out = length lines.
Proof.
  intros E. induction lines as [|l r IH]; intros st; simpl; [now exists []|].
  destruct (reformat_line_returns h m st l E) as (l' & st' & ->).
  destruct (IH st') as (out & -> & Hlen).
  exists (l' :: out). split; [reflexivity|]. simpl. now rewrite Hlen.
Qed.

(** With one of the six listed header styles the loop raises nothing,
    whatever the lines and the state it starts in, and it returns as
    many lines as it was given: a line is rewritten or blanked, never
    dropped or added. *)
Theorem reformat_lines_listed_style (h : string) (st : scan_state)
    (lines : list string) :
  In h header_styles ->
  exists out,
    reformat_lines h st lines = Returned out /\ length out = length lines.
Proof.
  intros H.
  assert (E : exists m, header_marker h = Returned m).
  { destruct H as [<-|[<-|[<-|[<-|[<-|[<-|[]]]]]]]; eexists; reflexivity. }
  destruct E as [m E]. exact (reformat_lines_returns h m lines E st).
Qed.

Lemma reformat_lines_listed_style_witness :
  exists out,
    reformat_lines "####" initial_state
      [tabline "SQL"; ln "    select 1"; ln "Done."]
    = Returned out /\ length out = 3.
Proof.
  apply (reformat_lines_listed_style "####" initial_state
           [tabline "SQL"; ln "    select 1"; ln "Done."]).
  simpl. tauto.
Defined.

(** A symbolic level and the marker it stands for give the same result
    on every input; and of a style that starts with h only the second
    character is read, so h10 is level 1. *)
Theorem reformat_lines_symbolic_style (st : scan_state) (lines : list string) :
  reformat_lines "h2" st lines = reformat_lines "##" st lines
  /\ reformat_lines "h3" st lines = reformat_lines "###" st lines
  /\ reformat_lines "h4" st lines = reformat_lines "####" st lines
  /\ reformat_lines "h10" st lines = reformat_lines "#" st lines.
Proof.
  repeat split; apply reformat_lines_marker; reflexivity.
Qed.

Lemma tab_line_not_blank (line : string) :
  tab_line line = true -> (String.length (strip line) =? 0) = false.
Proof.
  unfold tab_line. destruct line as [|c t]; [discriminate|].
  cbn [startswith].
  destruct (Ascii.eqb_spec "="%char c) as [<-|]; cbn [andb]; [|discriminate].
  intros _. unfold strip. cbn [lstrip isspace nat_of_ascii].
  change (isspace "="%char) with false. cbv iota.
  rewrite rstrip_cons by reflexivity. reflexivity.
Qed.

Lemma tab_line_not_indented (line : string) :
  tab_line line = true -> startswith line "    " = false.
Proof.
  unfold tab_line. destruct line as [|c t]; [discriminate|].
  cbn [startswith].
  destruct (Ascii.eqb_spec "="%char c) as [<-|]; cbn [andb]; [|discriminate].
  reflexivity.
Qed.

Lemma reformat_line_raises (h : string) (e : exn) (st : scan_state)
    (line : string) :
  header_marker h = Raised e ->
  tab_line line = true ->
  reformat_line h st line = Raised e.
Proof.
  intros E H. unfold reformat_line.
  rewrite (tab_line_not_blank line H), (tab_line_not_indented line H), E.
  unfold tab_line in H.
  destruct (in_tab_block st); cbv beta iota zeta; rewrite H; reflexivity.
Qed.

(** A style that starts with h needs a digit as its second character.
    At a line that starts with three equal signs the loop raises
    [IndexError] for the style h, and [ValueError] for a style whose
    second character is no decimal digit; this in any state, so also
    inside a fence. *)
Theorem reformat_line_bad_style (st : scan_state) (line rest : string)
    (c : ascii) :
  tab_line line = true ->
  digit_value c = None ->
  reformat_line "h" st line = Raised IndexError
  /\ reformat_line (String "h" (String c rest)) st line = Raised ValueError.
Proof.
  intros H Hc. split; apply reformat_line_raises; try exact H.
  - reflexivity.
  - unfold header_marker. cbn [startswith Ascii.eqb Bool.eqb andb String.get].
    change (String.get 1 (String "h" (String c rest))) with (Some c).
    now rewrite Hc.
Qed.

Lemma reformat_line_bad_style_witness :
  reformat_line "h" initial_state (tabline "Pandas") = Raised IndexError
  /\ reformat_line "hx" initial_state (tabline "Pandas") = Raised ValueError.
Proof.
  apply (reformat_line_bad_style initial_state (tabline "Pandas") "" "x"%char);
    reflexivity.
Defined.

Lemma reformat_line_no_tab (h h' : string) (st : scan_state) (line : string) :
  in_tab_block st = false ->
  tab_line line = false ->
  reformat_line h st line = reformat_line h' st line
  /\ forall line' st',
       reformat_line h st line = Returned (line', st') ->
       in_tab_block st' = false.
Proof.
  intros Hst H. unfold reformat_line. rewrite Hst.
  unfold tab_line in H. cbv beta iota zeta. rewrite H.
  split; [reflexivity|].
  intros line' st'. destruct (String.length (strip line) =? 0).
  - now intros [= _ <-].
  - cbv beta iota zeta.
    match goal with
    | |- context [if ?b then (_, true) else (?l, _)] => destruct b
    end; cbv beta iota zeta; now intros [= _ <-].
Qed.

(** The header style is looked at only at a line that starts with three
    equal signs: on lines without one, every style, valid or not, gives
    the same result, and nothing is raised. *)
Theorem reformat_lines_style_unused (h h' : string) (lines : list string) :
  forallb (fun line => negb (tab_line line)) lines = true ->
  reformat_lines h initial_state lines = reformat_lines h' initial_state lines
  /\ exists out, reformat_lines h initial_state lines = Returned out.
Proof.
  assert (G : forall st, in_tab_block st = false ->
            forallb (fun line => negb (tab_line line)) lines = true ->
            reformat_lines h st lines = reformat_lines h' st lines
            /\ reformat_lines h st lines = reformat_lines "h3" st lines).
  { induction lines as [|l r IH]; intros st Hst H; [split; reflexivity|].
    simpl in H. apply andb_prop in H as [Hl Hr].
    apply negb_true_iff in Hl. simpl.
    destruct (reformat_line_no_tab h h' st l Hst Hl) as [E1 N].
    destruct (reformat_line_no_tab h "h3" st l Hst Hl) as [E2 _].
    rewrite <- E1, <- E2.
    destruct (reformat_line h st l) as [[l' st']|c|e]; [|split; reflexivity..].
    destruct (IH st' (N l' st' eq_refl) Hr) as [-> ->]. split; reflexivity. }
  intros H. destruct (G initial_state eq_refl H) as [E1 E2].
  split; [exact E1|]. rewrite E2.
  destruct (reformat_lines_returns "h3" "### " lines eq_refl initial_state)
    as (out & E & _).
  now exists out.
Qed.

Lemma reformat_lines_style_unused_witness :
  reformat_lines "h" initial_state [ln "# Guide"; ln "Text."]
  = reformat_lines "h3" initial_state [ln "# Guide"; ln "Text."]
  /\ exists out,
       reformat_lines "h" initial_state [ln "# Guide"; ln "Text."]
       = Returned out.
Proof.
  apply (reformat_lines_style_unused "h" "h3" [ln "# Guide"; ln "Text."]).
  reflexivity.
Defined.

(** ** [reformat_file] as a whole *)

(** For a path that names no file the call prints that the file does
    not exist and returns [None]: the formatter is not started and no
    file is written. *)
Theorem reformat_file_missing
    (subprocess_run : list string -> world -> completed)
    (file_path header : string) (w : world) :
  files w !! file_path = None ->
  reformat_file subprocess_run file_path header w
  = (Returned None,
     World (files w)
       (stdout w ++ ["File " +:+ file_path +:+ " does not exist."])).
Proof.
  intros H. rewrite reformat_file_eq, H.
  rewrite bool_decide_eq_false_2 by (intros [x Hx]; discriminate).
  now rewrite andb_false_r.
Qed.

Lemma reformat_file_missing_witness :
  reformat_file failing_formatter "guide.md" "h3" (World ∅ [])
  = (Returned None, World ∅ ["File guide.md does not exist."]).
Proof.
  apply (reformat_file_missing failing_formatter "guide.md" "h3" (World ∅ [])).
  reflexivity.
Defined.

(** The formatter is run with [check=True]: when it exits with a
    non-zero status the call raises [CalledProcessError] after the
    command line was printed.  The files are then as the formatter left
    them: what it changed before it failed stays, and the call itself
    writes nothing.  When the formatter is not found the call raises
    [FileNotFoundError] and no file is touched. *)
Theorem reformat_file_formatter_fails
    (subprocess_run : list string -> world -> completed)
    (file_path header out : string) (w : world) :
  has_chr nul file_path = false ->
  is_Some (files w !! file_path) ->
  with_name file_path (stem file_path +:+ "-r" +:+ suffix file_path)
  = Some out ->
  (forall returncode w1,
     subprocess_run (formatter_command file_path)
       (formatter_start file_path w) = Finished returncode w1 ->
     returncode <> 0%Z ->
     reformat_file subprocess_run file_path header w
     = (Raised CalledProcessError, w1))
  /\ (subprocess_run (formatter_command file_path)
        (formatter_start file_path w) = NotStarted ->
      reformat_file subprocess_run file_path header w
      = (Raised FileNotFoundError,
         World (files w) (stdout w ++ [formatter_notice file_path]))).
Proof.
  intros Hnul Hex Hout. split.
  - intros returncode w1 Hrun Hrc.
    rewrite reformat_file_eq, Hnul, (bool_decide_eq_true_2 _ Hex), Hout, Hrun.
    cbn [negb andb]. apply Z.eqb_neq in Hrc. now rewrite Hrc.
  - intros Hrun.
    now rewrite reformat_file_eq, Hnul, (bool_decide_eq_true_2 _ Hex), Hout,
      Hrun.
Qed.

Lemma reformat_file_formatter_fails_witness :
  let w := World {[ "guide.md" := ln "# Guide" ]} [] in
  reformat_file failing_formatter "guide.md" "h3" w
  = (Raised CalledProcessError,
     World {[ "guide.md" := ln "# Formatted" ]}
       [nl +:+ "blacken-docs --line-length=120 --skip-errors guide.md"])
  /\ reformat_file missing_formatter "guide.md" "h3" w
     = (Raised FileNotFoundError,
        World (files w)
          [nl +:+ "blacken-docs --line-length=120 --skip-errors guide.md"]).
Proof.
  intros w.
  assert (Hex : is_Some (files w !! "guide.md"))
    by (exists (ln "# Guide"); reflexivity).
  split.
  - destruct (reformat_file_formatter_fails failing_formatter "guide.md" "h3"
                "guide-r.md" w eq_refl Hex eq_refl) as [A _].
    rewrite (A 1%Z _ eq_refl) by discriminate. reflexivity.
  - destruct (reformat_file_formatter_fails missing_formatter "guide.md" "h3"
                "guide-r.md" w eq_refl Hex eq_refl) as [_ B].
    exact (B eq_refl).
Defined.


(** ** Conversion to a notebook *)

Lemma converter_command_nonempty (input_file_path output_file : string) :
  converter_command input_file_path output_file <> [].
Proof. unfold converter_command, expand_space. cbn. discriminate. Qed.

Lemma convert_eq
    (subprocess_run : list string -> world -> completed)
    (p : string) (w : world) :
  convert_markdown_to_notebook subprocess_run (Some p) w =
  if negb (has_chr nul p) && bool_decide (is_Some (files w !! p))
  then
    if endswith p ".md" then
      let out := replace ".md" ".ipynb" p in
      match subprocess_run (formatter_command p) (formatter_start p w) with
      | NotStarted => (Raised FileNotFoundError, formatter_start p w)
      | Finished returncode w1 =>
          if Z.eqb returncode 0 then
            let w1' := World (files w1)
                         (stdout w1 ++ [converter_notice p out]) in
            match subprocess_run (converter_command p out) w1' with
            | NotStarted => (Raised FileNotFoundError, w1')
            | Finished returncode' w2 =>
                if Z.eqb returncode' 0 then
                  (Returned (Some out),
                   World (files w2)
                     (stdout w2 ++ ["Converted " +:+ p +:+ " to " +:+ out]))
                else (Raised CalledProcessError, w2)
            end
          else (Raised CalledProcessError, w1)
      end
    else (Returned None,
          World (files w)
            (stdout w ++ ["Input file " +:+ p +:+ " is not a markdown file."]))
  else (Returned None,
        World (files w)
          (stdout w ++ ["Input file " +:+ p +:+ " does not exist."])).
Proof.
  unfold convert_markdown_to_notebook.
  unfold mbind at 1, M_bind at 1. cbn [or_raise mret M_ret].
  unfold mbind at 1, M_bind at 1, path_exists.
  destruct (negb (has_chr nul p) && bool_decide (is_Some (files w !! p)));
    cbn [negb]; [|reflexivity].
  destruct (endswith p ".md"); cbn [negb]; [|reflexivity].
  cbv zeta. unfold mbind at 1, M_bind at 1. rewrite run_formatter.
  destruct (subprocess_run (formatter_command p) _) as [returncode w1|];
    [|reflexivity].
  destruct (Z.eqb returncode 0); [|reflexivity].
  unfold run, run_command, mbind, M_bind, print.
  fold (converter_command p (replace ".md" ".ipynb" p)).
  fold (converter_notice p (replace ".md" ".ipynb" p)).
  rewrite subprocess_nonempty by apply converter_command_nonempty.
  cbn [files stdout].
  destruct (subprocess_run (converter_command p _) _) as [returncode' w2|];
    [|reflexivity].
  destruct (Z.eqb returncode' 0); reflexivity.
Qed.

(** A path that names no file, or a file whose path does not end in
    [.md], is reported and [None] is returned: no command is run and
    the files stay as they are. *)
Theorem convert_rejects
    (subprocess_run : list string -> world -> completed)
    (p : string) (w : world) :
  (files w !! p = None ->
   convert_markdown_to_notebook subprocess_run (Some p) w
   = (Returned None,
      World (files w)
        (stdout w ++ ["Input file " +:+ p +:+ " does not exist."])))
  /\ (has_chr nul p = false -> is_Some (files w !! p) ->
      endswith p ".md" = false ->
      convert_markdown_to_notebook subprocess_run (Some p) w
      = (Returned None,
         World (files w)
           (stdout w ++ ["Input file " +:+ p +:+ " is not a markdown file."]))).
Proof.
  split.
  - intros H. rewrite convert_eq, H.
    rewrite bool_decide_eq_false_2 by (intros [x Hx]; discriminate).
    now rewrite andb_false_r.
  - intros Hnul Hex Hmd.
    now rewrite convert_eq, Hnul, (bool_decide_eq_true_2 _ Hex), Hmd.
Qed.

Lemma convert_rejects_witness :
  let w := World {[ "notes.txt" := ln "# Notes" ]} [] in
  convert_markdown_to_notebook failing_formatter (Some "guide.md") w
  = (Returned None,
     World (files w) ["Input file guide.md does not exist."])
  /\ convert_markdown_to_notebook failing_formatter (Some "notes.txt") w
     = (Returned None,
        World (files w) ["Input file notes.txt is not a markdown file."]).
Proof.
  intros w. split.
  - apply (convert_rejects failing_formatter "guide.md" w). reflexivity.
  - apply (convert_rejects failing_formatter "notes.txt" w).
    + reflexivity.
    + exists (ln "# Notes"). reflexivity.
    + reflexivity.
Defined.

(** [format_and_convert] hands the result of [reformat_file] on as it
    is: for a path that names no file that is [None], and the call
    raises [TypeError] after the report of the missing file. *)
Theorem format_and_convert_missing
    (subprocess_run : list string -> world -> completed)
    (file_path header : string) (w : world) :
  files w !! file_path = None ->
  format_and_convert subprocess_run file_path header w
  = (Raised TypeError,
     World (files w)
       (stdout w ++ ["File " +:+ file_path +:+ " does not exist."])).
Proof.
  intros H. unfold format_and_convert.
  unfold mbind at 1, M_bind at 1.
  rewrite reformat_file_eq, H.
  rewrite bool_decide_eq_false_2 by (intros [x Hx]; discriminate).
  rewrite andb_false_r. reflexivity.
Qed.

Lemma format_and_convert_missing_witness :
  format_and_convert idle_formatter "guide.md" "h3" (World ∅ [])
  = (Raised TypeError, World ∅ ["File guide.md does not exist."]).
Proof.
  apply (format_and_convert_missing idle_formatter "guide.md" "h3" (World ∅ [])).
  reflexivity.
Defined.

Lemma md_not_at (c : ascii) (a b : string) :
  startswith (String c a) ".md" = false ->
  startswith (String c a +:+ ".md" +:+ b) ".md" = false.
Proof.
  intros H.
  destruct a as [|x [|y a]].
  - cbn [String.append startswith].
    destruct (Ascii.eqb "." c); reflexivity.
  - cbn [String.append startswith].
    destruct (Ascii.eqb "." c), (Ascii.eqb "m" x); reflexivity.
  - rewrite startswith_app; [exact H|]. simpl. lia.
Qed.

Lemma replace_from_cons (old new : string) (c : ascii) (t : string) :
  startswith (String c t) old = false ->
  replace_from old new 0 (String c t)
  = String c (replace_from old new 0 t).
Proof. intros H. cbn [replace_from]. now rewrite H. Qed.

Lemma replace_md (a b : string) :
  contains ".md" a = false ->
  replace ".md" ".ipynb" (a +:+ ".md" +:+ b)
  = a +:+ ".ipynb" +:+ replace ".md" ".ipynb" b.
Proof.
  unfold replace. induction a as [|c a IH]; intros H.
  - reflexivity.
  - cbn [contains] in H. apply orb_false_elim in H as [Hs Hc].
    pose proof (md_not_at c a b Hs) as Hm.
    change (String c a +:+ ".md" +:+ b)
      with (String c (a +:+ ".md" +:+ b)) in *.
    rewrite (replace_from_cons _ _ _ _ Hm), (IH Hc). reflexivity.
Qed.

Lemma endswith_app (a p : string) : endswith (a +:+ p) p = true.
Proof.
  induction a as [|c a IH].
  - cbn [String.append]. destruct p; simpl; [reflexivity|].
    now rewrite Ascii.eqb_refl, String.eqb_refl.
  - cbn [String.append endswith]. rewrite IH. apply orb_true_r.
Qed.

(** The path of the notebook is the input path with every [.md] in it
    replaced, not only the extension: up to and including the first
    [.md] it is the input with [.ipynb] for [.md], and what follows is
    replaced in the same way.  For a path whose only [.md] is its end,
    a call whose two commands succeed returns the path with [.ipynb]
    for the extension. *)
Theorem convert_notebook_path
    (subprocess_run : list string -> world -> completed)
    (a b : string) (w w1 w2 : world) :
  contains ".md" a = false ->
  replace ".md" ".ipynb" (a +:+ ".md" +:+ b)
  = a +:+ ".ipynb" +:+ replace ".md" ".ipynb" b
  /\ (let p := a +:+ ".md" in
      let out := a +:+ ".ipynb" in
      has_chr nul p = false -> is_Some (files w !! p) ->
      formatted subprocess_run p w = Some w1 ->
      subprocess_run (converter_command p out)
        (World (files w1) (stdout w1 ++ [converter_notice p out]))
      = Finished 0 w2 ->
      convert_markdown_to_notebook subprocess_run (Some p) w
      = (Returned (Some out),
         World (files w2)
           (stdout w2 ++ ["Converted " +:+ p +:+ " to " +:+ out]))).
Proof.
  intros H. split; [now apply replace_md|].
  intros p out Hnul Hex Hfmt Hconv. subst p out.
  pose proof (replace_md a "" H) as R.
  change (replace ".md" ".ipynb" "") with "" in R.
  change (".md" +:+ "") with ".md" in R.
  change (".ipynb" +:+ "") with ".ipynb" in R.
  rewrite convert_eq, Hnul, (bool_decide_eq_true_2 _ Hex), endswith_app.
  cbn [negb andb]. cbv zeta. rewrite R. unfold formatted in Hfmt.
  destruct (subprocess_run (formatter_command _) _) as [returncode w1'|];
    [|discriminate].
  destruct (Z.eqb returncode 0); [|discriminate].
  injection Hfmt as ->. now rewrite Hconv.
Qed.

Lemma convert_notebook_path_witness :
  replace ".md" ".ipynb" "docs.md/guide.md" = "docs.ipynb/guide.ipynb"
  /\ (let w := World {[ "guide.md" := ln "# Guide" ]} [] in
      fst (convert_markdown_to_notebook idle_formatter (Some "guide.md") w)
      = Returned (Some "guide.ipynb")).
Proof.
  split.
  - destruct (convert_notebook_path idle_formatter "docs" "/guide.md"
                (World ∅ []) (World ∅ []) (World ∅ []) eq_refl) as [R _].
    exact R.
  - intros w.
    destruct (convert_notebook_path idle_formatter "guide" "" w
                (World (files w) [formatter_notice "guide.md"])
                (World (files w) [formatter_notice "guide.md";
                                  converter_notice "guide.md" "guide.ipynb"])
                eq_refl) as [_ R].
    assert (Hex : is_Some (files w !! ("guide" +:+ ".md")))
      by (exists (ln "# Guide"); reflexivity).
    exact (f_equal fst (R eq_refl Hex eq_refl eq_refl)).
Defined.

(** ** The matches of the tab pattern *)

Lemma in_tabs (segs : list segment) (m : tab_match) :
  In m (tabs segs) -> exists pre post, segs = pre ++ Tab m :: post.
Proof.
  induction segs as [|[c|m'] segs IH]; cbn [tabs]; intros H; [destruct H| |].
  - destruct (IH H) as (pre & post & ->). now exists (Plain c :: pre), post.
  - destruct H as [->|H]; [now exists [], segs|].
    destruct (IH H) as (pre & post & ->). now exists (Tab m' :: pre), post.
Qed.

Lemma finditer_from_match (s : string) (m : tab_match) :
  forall skip bol,
    In m (finditer_from skip bol s) -> exists s', match_tab s' = Some m.
Proof.
  induction s as [|c t IH]; intros skip bol H; [destruct H|].
  cbn [finditer_from] in H. destruct skip as [|k]; [|exact (IH _ _ H)].
  destruct (if bol then match_tab (String c t) else None) as [m'|] eqn:Hm.
  - destruct H as [->|H]; [|exact (IH _ _ H)].
    exists (String c t). destruct bol; [exact Hm|discriminate].
  - exact (IH _ _ H).
Qed.

Lemma span_all (f : ascii -> bool) (s : string) :
  forall a b, span f s = (a, b) ->
  forall c, has_chr c a = true -> f c = true.
Proof.
  induction s as [|d t IH]; intros a b H c Hc; simpl in H.
  - injection H as <- <-. discriminate.
  - destruct (f d) eqn:Hd.
    + destruct (span f t) as [a' b'] eqn:Ht. injection H as <- <-.
      simpl in Hc. apply orb_prop in Hc as [Hc|Hc].
      * apply Ascii.eqb_eq in Hc. now subst.
      * exact (IH a' b' eq_refl c Hc).
    + injection H as <- <-. discriminate.
Qed.

Lemma match_tab_name (s : string) (m : tab_match) :
  match_tab s = Some m ->
  tab_name m <> "" /\ has_chr dquote (tab_name m) = false
  /\ startswith (full_match m) (tab_open +:+ tab_name m +:+ q) = true.
Proof.
  unfold match_tab. intros H.
  destruct (strip_prefix tab_open s) as [s1|]; [|discriminate].
  destruct (span (fun c => negb (is_dquote c)) s1) as [name s2] eqn:Hs.
  destruct name as [|n name]; [discriminate|].
  destruct s2 as [|c2 s3]; [discriminate|].
  destruct (spaces_then_newline s3) as [[ws s4]|]; [|discriminate].
  destruct (tab_body AtLineStart s4) as [body rest].
  injection H as <-. cbn [tab_name full_match].
  split; [discriminate|]. split.
  - destruct (has_chr dquote (String n name)) eqn:Hq; [|reflexivity].
    pose proof (span_all _ _ _ _ Hs dquote Hq) as F. discriminate F.
  - match goal with
    | |- startswith ?x ?p = true =>
        replace x with (p +:+ (ws +:+ body)); [apply startswith_refl_app|]
    end.
    unfold tab_open, q. simpl. now rewrite app_assoc_s.
Qed.

(** Every match of the pattern has a name that is not empty and holds
    no double quote, starts with the three equal signs and its quoted
    name, and is a part of the document; the matches, in the order
    found, and the characters outside them make up the document, so no
    two matches overlap. *)
Theorem finditer_matches (content : string) :
  (forall m, In m (finditer content) ->
     tab_name m <> "" /\ has_chr dquote (tab_name m) = false
     /\ startswith (full_match m) (tab_open +:+ tab_name m +:+ q) = true
     /\ exists a b, content = a +:+ full_match m +:+ b)
  /\ exists segs, tabs segs = finditer content /\ flatten segs = content.
Proof.
  split.
  - intros m H.
    destruct (finditer_from_match _ _ _ _ H) as [s' Hs'].
    destruct (match_tab_name _ _ Hs') as (H1 & H2 & H3).
    repeat (split; [assumption|]).
    unfold finditer in H. rewrite finditer_scan in H.
    apply in_tabs in H as (pre & post & E).
    exists (flatten pre), (flatten post).
    rewrite <- (flatten_scan content) at 1. unfold scan.
    rewrite E, flatten_app. reflexivity.
  - exists (scan content). split; [|apply flatten_scan].
    unfold finditer, scan. now rewrite finditer_scan.
Qed.

Lemma strip_prefix_none (p s : string) :
  startswith s p = false -> strip_prefix p s = None.
Proof.
  revert s. induction p as [|a p IH]; intros s H; [discriminate|].
  destruct s as [|b s]; [reflexivity|].
  simpl in *. destruct (Ascii.eqb a b); [now apply IH|reflexivity].
Qed.

Lemma finditer_from_none (s : string) :
  contains tab_open s = false ->
  forall skip bol, finditer_from skip bol s = [].
Proof.
  induction s as [|c t IH]; intros H skip bol; [reflexivity|].
  cbn [contains] in H. apply orb_false_elim in H as [Hs Ht].
  cbn [finditer_from]. destruct skip as [|k]; [|now apply IH].
  unfold match_tab. rewrite (strip_prefix_none _ _ Hs).
  destruct bol; now apply IH.
Qed.

(** A markdown file in which the three equal signs, a space and a
    double quote nowhere stand together has no tab section: the call
    says so and writes nothing. *)
Theorem extract_no_marker (file_path section_name content : string)
    (w : world) :
  has_chr nul file_path = false ->
  files w !! file_path = Some content ->
  suffix file_path = ".md" ->
  contains tab_open content = false ->
  finditer content = []
  /\ extract_sections_from_markdown_file file_path section_name w
     = (Returned (),
        World (files w)
          (stdout w ++ ["No tab sections found in " +:+ file_path])).
Proof.
  intros Hnul Hf Hsuf Hc.
  assert (E : finditer content = []) by now apply finditer_from_none.
  split; [exact E|].
  now rewrite extract_eq, Hnul, Hf, Hsuf, E.
Qed.

Lemma extract_no_marker_witness :
  let w := World {[ "guide.md" := ln "# Guide" +:+ ln "=== pandas" ]} [] in
  extract_sections_from_markdown_file "guide.md" "pandas" w
  = (Returned (), World (files w) ["No tab sections found in guide.md"]).
Proof.
  intros w.
  apply (extract_no_marker "guide.md" "pandas"
           (ln "# Guide" +:+ ln "=== pandas") w); reflexivity.
Defined.

Lemma remove_sections_all_kept (target : string) (matches : list tab_match)
    (content : string) :
  forallb (is_target target) matches = true ->
  remove_sections target matches content = content.
Proof.
  unfold remove_sections. intros H.
  assert (G : forallb (is_target target) (rev matches) = true).
  { apply forallb_forall. intros m Hm. apply in_rev in Hm.
    rewrite forallb_forall in H. now apply H. }
  revert G. generalize (rev matches) as l.
  induction l as [|m l IH]; intros G; [reflexivity|].
  simpl in G. apply andb_prop in G as [Hm Hl].
  cbn [fold_left]. unfold remove_step at 2. rewrite Hm. now apply IH.
Qed.

(** When every section of the document has the requested name nothing
    is removed: the text written is the document, with its runs of four
    or more line feeds cut to three. *)
Theorem extract_all_sections_kept (file_path section_name content : string)
    (w : world) :
  In section_name valid_sections ->
  has_chr nul file_path = false ->
  files w !! file_path = Some content ->
  suffix file_path = ".md" ->
  finditer content <> [] ->
  forallb (is_target (lower section_name)) (finditer content) = true ->
  files (snd (extract_sections_from_markdown_file file_path section_name w))
  = <[extract_path file_path section_name := sub_newlines content]> (files w).
Proof.
  intros Hvalid Hnul Hf Hsuf Hne Hall.
  destruct (valid_section_lower _ Hvalid) as (Hlow & Hslash & Hnul').
  assert (Hout : with_name file_path (extract_name file_path section_name)
                 = Some (extract_path file_path section_name)).
  { rewrite <- Hlow at 2. apply with_name_extract; [exact Hsuf|].
    now rewrite Hlow. }
  assert (Hkept : List.filter (is_target (lower section_name))
                    (finditer content) <> []).
  { destruct (finditer content) as [|m ms]; [congruence|].
    simpl in *. apply andb_prop in Hall as [-> _]. discriminate. }
  rewrite (extract_writes _ _ _ _ _ Hnul Hf Hsuf Hkept Hout
             (extract_path_no_nul _ _ Hnul Hnul')).
  unfold extract_text. now rewrite remove_sections_all_kept.
Qed.

Lemma extract_all_sections_kept_witness :
  let content := tabline "SQL" +:+ ln "    select 1" +:+ ln "Text."
                 +:+ tabline "sql" +:+ ln "    select 2" in
  let w := World {[ "guide.md" := content ]} [] in
  files (snd (extract_sections_from_markdown_file "guide.md" "sql" w))
  = <["guide-sql.md" := content]> (files w).
Proof.
  intros content w.
  apply (extract_all_sections_kept "guide.md" "sql" content w).
  - right. left. reflexivity.
  - reflexivity.
  - reflexivity.
  - reflexivity.
  - discriminate.
  - reflexivity.
Defined.

(** ** The newline cleanup, once more *)

Lemma startswith_split (s p : string) :
  startswith s p = true -> exists b, s = p +:+ b.
Proof.
  revert s. induction p as [|a p IH]; intros s H; [now exists s|].
  destruct s as [|c s]; [discriminate|].
  simpl in H. apply andb_prop in H as [Hc Hs].
  apply Ascii.eqb_eq in Hc. subst c.
  destruct (IH s Hs) as [b ->]. now exists b.
Qed.

Lemma contains_split (p s : string) :
  contains p s = true -> exists a b, s = a +:+ p +:+ b.
Proof.
  induction s as [|c t IH]; cbn [contains]; intros H.
  - rewrite orb_false_r in H. apply startswith_split in H as [b ->].
    now exists "", b.
  - apply orb_prop in H as [H|H].
    + apply startswith_split in H as [b ->]. now exists "", b.
    + destruct (IH H) as (a & b & ->). now exists (String c a), b.
Qed.

Lemma sub_newlines_fixed (s : string) :
  contains nl4 s = false -> sub_newlines s = s.
Proof.
  intros H. apply sub_newlines_id; [|exact H].
  destruct s as [|c t]; [simpl; lia|].
  cbn [contains] in H. apply orb_false_elim in H as [Hs _].
  apply startswith_nl4 in Hs. simpl in *. lia.
Qed.

Lemma sub_newlines_from_length (s : string) :
  forall k, String.length (sub_newlines_from k s) <= String.length s.
Proof.
  induction s as [|c t IH]; intros k; simpl; [lia|].
  destruct (is_newline c); [destruct (k <? 3)|]; simpl;
    match goal with
    | |- context [sub_newlines_from ?j t] => specialize (IH j)
    end; lia.
Qed.

(** The cleanup is idempotent, it leaves a text without four line
    feeds in a row as it is, and it never makes a text longer. *)
Theorem sub_newlines_idempotent (s : string) :
  sub_newlines (sub_newlines s) = sub_newlines s
  /\ (contains nl4 s = false -> sub_newlines s = s)
  /\ String.length (sub_newlines s) <= String.length s.
Proof.
  split; [|split].
  - apply sub_newlines_fixed.
    destruct (contains nl4 (sub_newlines s)) eqn:E; [|reflexivity].
    apply contains_split in E as (a & b & E).
    now apply sub_newlines_no_run in E.
  - apply sub_newlines_fixed.
  - apply sub_newlines_from_length.
Qed.

Lemma sub_newlines_idempotent_witness :
  sub_newlines (ln "a" +:+ nl +:+ nl +:+ ln "b")
  = ln "a" +:+ nl +:+ nl +:+ ln "b".
Proof.
  apply (sub_newlines_idempotent (ln "a" +:+ nl +:+ nl +:+ ln "b")).
  reflexivity.
Defined.

(** ** Command lines: an argument with a space *)

Lemma split_go_space (x rest : string) (c : ascii) :
  has_space x = false -> isspace c = true ->
  forall w,
    split_go (Some w) (x +:+ String c rest)
    = (String.rev w +:+ x) :: split_go None rest.
Proof.
  intros Hx Hc. induction x as [|d x IH]; intros w.
  - cbn [String.append split_go]. rewrite Hc. now rewrite app_empty_r.
  - simpl in Hx. apply orb_false_elim in Hx as [Hd Hx].
    cbn [String.append split_go]. rewrite Hd. cbn [default from_option].
    rewrite (IH Hx), rev_cons. now rewrite app_assoc_s.
Qed.

(** [run] splits its arguments at spaces.  A file path that holds a
    space therefore reaches the formatter as two arguments. *)
Theorem formatter_command_path_with_space (a b : string) :
  is_word a = true -> is_word b = true ->
  expand_space [a +:+ " " +:+ b] = [a; b]
  /\ formatter_command (a +:+ " " +:+ b)
     = ["blacken-docs"; "--line-length=120"; "--skip-errors"; a; b].
Proof.
  intros Ha Hb.
  assert (E : split_ws (a +:+ " " +:+ b) = [a; b]).
  { pose proof (split_ws_word b Hb) as Eb. unfold split_ws in *.
    unfold is_word in Ha. apply andb_prop in Ha as [Hne Hs].
    apply negb_true_iff in Hs.
    destruct a as [|c a]; [discriminate|].
    simpl in Hs. apply orb_false_elim in Hs as [Hc Hs].
    cbn [String.append split_go]. rewrite Hc. cbn [default from_option].
    rewrite (split_go_space a b " "%char Hs eq_refl), Eb. reflexivity. }
  split.
  - unfold expand_space. cbn [List.map concat]. rewrite E. reflexivity.
  - unfold formatter_command, expand_space. cbn [List.map concat].
    rewrite E. reflexivity.
Qed.

Lemma formatter_command_path_with_space_witness :
  formatter_command "my guide.md"
  = ["blacken-docs"; "--line-length=120"; "--skip-errors"; "my"; "guide.md"].
Proof.
  apply (formatter_command_path_with_space "my" "guide.md"); reflexivity.
Defined.

(** ** The tab pattern on a section *)

Lemma stn_spaces (u more : string) :
  all_space u = true ->
  spaces_then_newline (u +:+ nl +:+ more)
  = Some (match spaces_then_newline more with
          | Some (m, r) => (u +:+ nl +:+ m, r)
          | None => (u +:+ nl, more)
          end).
Proof.
  induction u as [|c u IH]; intros H.
  - cbn [String.append nl spaces_then_newline].
    change (isspace newline) with true. change (is_newline newline) with true.
    cbv iota. now destruct (spaces_then_newline more) as [[m r]|].
  - simpl in H. apply andb_prop in H as [Hc Hu].
    cbn [String.append spaces_then_newline]. rewrite Hc, (IH Hu).
    now destruct (spaces_then_newline more) as [[m r]|].
Qed.

Lemma stn_text (u more : string) :
  has_chr newline u = false -> all_space u = false ->
  spaces_then_newline (u +:+ more) = None.
Proof.
  induction u as [|c u IH]; intros Hn Hs; [discriminate|].
  simpl in Hn. apply orb_false_elim in Hn as [Hc Hn].
  cbn [all_space] in Hs. cbn [String.append spaces_then_newline].
  destruct (isspace c); [|reflexivity].
  rewrite (IH Hn Hs). unfold is_newline. now rewrite Hc.
Qed.

Lemma stn_rest (rest : string) :
  starts_text rest = true -> spaces_then_newline rest = None.
Proof.
  destruct rest as [|c t]; [reflexivity|]. simpl. intros H.
  apply negb_true_iff in H. now rewrite H.
Qed.

Lemma body_lines_cons_app (t : string) (ts : list string) (rest : string) :
  body_lines (t :: ts) +:+ rest
  = (indent +:+ t) +:+ nl +:+ (body_lines ts +:+ rest).
Proof. cbn [body_lines]. now rewrite !app_assoc_s. Qed.

Lemma body_lines_app (a b : list string) :
  body_lines (a ++ b) = body_lines a +:+ body_lines b.
Proof.
  induction a as [|t a IH]; [reflexivity|].
  cbn [app body_lines]. now rewrite IH, !app_assoc_s.
Qed.

Lemma one_line_indent (t : string) :
  one_line t = true -> has_chr newline (indent +:+ t) = false.
Proof.
  unfold one_line. intros H. apply negb_true_iff in H.
  now rewrite has_chr_app, H.
Qed.

(** The spaces after the quoted name: the line feed of the tab line and
    the lines of spaces only that follow it. *)
Lemma stn_body (texts : list string) (rest : string) :
  forallb one_line texts = true ->
  starts_text rest = true ->
  exists k,
    spaces_then_newline (nl +:+ body_lines texts +:+ rest)
    = Some (nl +:+ body_lines (take k texts),
            body_lines (drop k texts) +:+ rest).
Proof.
  intros Ht Hr.
  assert (A : exists k,
            match spaces_then_newline (body_lines texts +:+ rest) with
            | Some (m, r) =>
                m = body_lines (take k texts)
                /\ r = body_lines (drop k texts) +:+ rest
            | None => True
            end).
  { induction texts as [|t ts IH].
    - exists 0. cbn [body_lines String.append]. now rewrite (stn_rest rest Hr).
    - simpl in Ht. apply andb_prop in Ht as [H1 Hts].
      rewrite body_lines_cons_app.
      destruct (all_space (indent +:+ t)) eqn:Hs.
      + rewrite (stn_spaces _ _ Hs).
        destruct (IH Hts) as [k Hk].
        destruct (spaces_then_newline (body_lines ts +:+ rest)) as [[m r]|].
        * destruct Hk as [-> ->]. exists (S k).
          cbn [take drop body_lines]. split; [|reflexivity].
          now rewrite !app_assoc_s.
        * exists 1. cbn [take drop body_lines]. rewrite take_0.
          cbn [body_lines]. split; [|reflexivity].
          now rewrite !app_assoc_s.
      + exists 0. now rewrite (stn_text _ _ (one_line_indent t H1) Hs). }
  destruct A as [k Hk].
  pose proof (stn_spaces "" (body_lines texts +:+ rest) eq_refl) as E.
  cbn [String.append] in E.
  destruct (spaces_then_newline (body_lines texts +:+ rest)) as [[m r]|].
  - destruct Hk as [-> ->]. exists k. exact E.
  - exists 0. rewrite take_0, drop_0. cbn [body_lines]. exact E.
Qed.

Lemma tab_body_text (t s : string) :
  has_chr newline t = false ->
  forall st, st = InIndent \/ st = InLine ->
  tab_body st (t +:+ nl +:+ s)
  = (t +:+ nl +:+ fst (tab_body InNewlines s), snd (tab_body InNewlines s)).
Proof.
  intros Hn. induction t as [|c t IH]; intros st Hst.
  - cbn [String.append nl tab_body].
    change (is_blank newline) with false. change (is_newline newline) with true.
    destruct (tab_body InNewlines s) as [m r].
    destruct Hst as [->| ->]; reflexivity.
  - simpl in Hn. apply orb_false_elim in Hn as [Hc Hn].
    assert (Hc' : is_newline c = false) by exact Hc.
    cbn [String.append tab_body]. rewrite Hc'.
    destruct Hst as [->| ->]; [destruct (is_blank c)|];
      rewrite (IH Hn) by auto; reflexivity.
Qed.

Lemma tab_body_indent (s : string) (st : body_state) :
  st = AtLineStart \/ st = InNewlines ->
  tab_body st (indent +:+ s)
  = (indent +:+ fst (tab_body InIndent s), snd (tab_body InIndent s)).
Proof.
  intros Hst. unfold indent. cbn [String.append tab_body].
  change (is_blank " ") with true. change (is_newline " ") with false.
  destruct (tab_body InIndent s) as [m r].
  destruct Hst as [->| ->]; reflexivity.
Qed.

Lemma isspace_blank (c : ascii) :
  isspace c = false -> is_blank c = false /\ is_newline c = false.
Proof.
  destruct c as [[] [] [] [] [] [] [] []]; intros H;
    try discriminate H; split; reflexivity.
Qed.

Lemma tab_body_rest (rest : string) (st : body_state) :
  starts_text rest = true ->
  st = AtLineStart \/ st = InNewlines ->
  tab_body st rest = ("", rest).
Proof.
  destruct rest as [|c t]; [reflexivity|]. simpl. intros H Hst.
  apply negb_true_iff in H. destruct (isspace_blank c H) as [Hb Hn].
  rewrite Hb, Hn. destruct Hst as [->| ->]; reflexivity.
Qed.

(** The group of the body takes the lines of the section and stops
    before what follows. *)
Lemma tab_body_lines (texts : list string) (rest : string) :
  forallb one_line texts = true ->
  starts_text rest = true ->
  forall st, st = AtLineStart \/ st = InNewlines ->
  tab_body st (body_lines texts +:+ rest) = (body_lines texts, rest).
Proof.
  intros Ht Hr. induction texts as [|t ts IH]; intros st Hst.
  - cbn [body_lines String.append]. now apply tab_body_rest.
  - simpl in Ht. apply andb_prop in Ht as [H1 Hts].
    unfold one_line in H1. apply negb_true_iff in H1.
    cbn [body_lines]. rewrite !app_assoc_s.
    rewrite (tab_body_indent _ st Hst).
    rewrite (tab_body_text t _ H1 InIndent) by auto.
    rewrite (IH Hts InNewlines) by auto. reflexivity.
Qed.

Lemma strip_prefix_refl_app (p s : string) : strip_prefix p (p +:+ s) = Some s.
Proof.
  induction p as [|a p IH]; [reflexivity|].
  cbn [String.append strip_prefix]. now rewrite Ascii.eqb_refl.
Qed.

Lemma span_name (name x : string) :
  has_chr dquote name = false ->
  span (fun c => negb (is_dquote c)) (name +:+ q +:+ x) = (name, q +:+ x).
Proof.
  induction name as [|c name IH]; intros H.
  - reflexivity.
  - simpl in H. apply orb_false_elim in H as [Hc Hn].
    cbn [String.append span]. unfold is_dquote at 1. rewrite Hc.
    cbn [negb]. now rewrite (IH Hn).
Qed.

Lemma forallb_drop (f : string -> bool) (k : nat) (l : list string) :
  forallb f l = true -> forallb f (drop k l) = true.
Proof.
  revert k. induction l as [|x l IH]; intros k H; [now destruct k|].
  destruct k as [|k]; [exact H|].
  simpl in H. apply andb_prop in H as [_ H]. now apply IH.
Qed.

(** The pattern, tried where a section starts, matches the tab line and
    the lines of the body, and nothing of what follows. *)
Lemma match_tab_section (name : string) (texts : list string) (rest : string) :
  name <> "" -> has_chr dquote name = false ->
  forallb one_line texts = true ->
  starts_text rest = true ->
  match_tab (tabline name +:+ body_lines texts +:+ rest)
  = Some (TabMatch name (tabline name +:+ body_lines texts)).
Proof.
  intros Hne Hq Ht Hr. unfold match_tab, tabline.
  rewrite !app_assoc_s, strip_prefix_refl_app, (span_name _ _ Hq).
  destruct name as [|n name]; [congruence|].
  cbn [q String.append].
  destruct (stn_body texts rest Ht Hr) as [k Hk].
  change (String newline (body_lines texts +:+ rest))
    with (nl +:+ body_lines texts +:+ rest).
  rewrite Hk.
  rewrite (tab_body_lines _ rest (forallb_drop _ k _ Ht) Hr AtLineStart)
    by auto.
  do 2 f_equal. f_equal.
  rewrite <- (take_drop k texts) at 3. rewrite body_lines_app.
  cbn [nl String.append]. reflexivity.
Qed.

Lemma finditer_from_skip (x rest : string) :
  forall b,
    finditer_from (String.length x) b (x +:+ rest)
    = finditer_from 0 (match x with "" => b | _ => last_is_newline x end) rest.
Proof.
  induction x as [|c x IH]; intros b; [reflexivity|].
  cbn [String.length String.append finditer_from]. rewrite IH.
  destruct x; reflexivity.
Qed.

Lemma last_is_newline_app (y : string) : last_is_newline (y +:+ nl) = true.
Proof.
  induction y as [|c y IH]; [reflexivity|].
  cbn [String.append]. cbn [String.append] in IH.
  destruct (y +:+ nl) eqn:E; [destruct y; discriminate|].
  exact IH.
Qed.

Lemma body_lines_end (texts : list string) :
  body_lines texts = "" \/ exists y, body_lines texts = y +:+ nl.
Proof.
  induction texts as [|t ts IH]; [now left|]. right. cbn [body_lines].
  destruct IH as [->|[y ->]].
  - exists (indent +:+ t). now rewrite app_empty_r.
  - exists (indent +:+ t +:+ nl +:+ y). now rewrite !app_assoc_s.
Qed.

Lemma section_end (name : string) (texts : list string) :
  exists y, tabline name +:+ body_lines texts = String "=" (y +:+ nl).
Proof.
  unfold tabline, tab_open.
  destruct (body_lines_end texts) as [->|[y ->]].
  - exists ("== " +:+ q +:+ name +:+ q). rewrite app_empty_r.
    cbn [String.append]. now rewrite !app_assoc_s.
  - exists ("== " +:+ q +:+ name +:+ q +:+ nl +:+ y).
    cbn [String.append]. now rewrite !app_assoc_s.
Qed.

(** The pattern finds a section where it stands: for a tab line with a
    name that is not empty and holds no double quote, followed by body
    lines (four spaces, a text without a line feed, a line feed) and
    then by nothing or by text that does not start with a space
    character, the first match has that name and is the tab line with
    all its body lines, and the search goes on in what follows. *)
Theorem finditer_section (name : string) (texts : list string) (rest : string) :
  name <> "" -> has_chr dquote name = false ->
  forallb one_line texts = true ->
  starts_text rest = true ->
  finditer (tabline name +:+ body_lines texts +:+ rest)
  = TabMatch name (tabline name +:+ body_lines texts) :: finditer rest.
Proof.
  intros Hne Hq Ht Hr. unfold finditer.
  pose proof (match_tab_section name texts rest Hne Hq Ht Hr) as M.
  destruct (section_end name texts) as [y E].
  rewrite <- app_assoc_s in M |- *. rewrite E in M |- *.
  cbn [String.append finditer_from]. cbn [String.append] in M. rewrite M.
  cbn [full_match String.length]. rewrite Nat.sub_succ, Nat.sub_0_r.
  rewrite finditer_from_skip, last_is_newline_app.
  destruct (y +:+ nl) eqn:Ey; [destruct y; discriminate|reflexivity].
Qed.

Lemma finditer_section_witness :
  finditer (tabline "pandas" +:+ ln "    df.sum()"
            +:+ tabline "polars" +:+ ln "    df.sum()")
  = [TabMatch "pandas" (tabline "pandas" +:+ ln "    df.sum()");
     TabMatch "polars" (tabline "polars" +:+ ln "    df.sum()")].
Proof.
  assert (N1 : "pandas" <> "") by discriminate.
  assert (N2 : "polars" <> "") by discriminate.
  pose proof (finditer_section "pandas" ["df.sum()"]
                (tabline "polars" +:+ ln "    df.sum()")
                N1 eq_refl eq_refl eq_refl) as A.
  pose proof (finditer_section "polars" ["df.sum()"] ""
                N2 eq_refl eq_refl eq_refl) as B.
  exact (eq_trans A (f_equal (cons _) B)).
Defined.

(** ** The include marker in the output of the loop *)

Lemma rstrip_empty (s : string) : rstrip s = "" -> all_space s = true.
Proof.
  induction s as [|c t IH]; [reflexivity|]. cbn [rstrip all_space].
  destruct (rstrip t) eqn:E; [|discriminate].
  destruct (isspace c); [intros _; now apply IH|discriminate].
Qed.

Lemma lstrip_empty (s : string) :
  all_space (lstrip s) = true -> all_space s = true.
Proof.
  induction s as [|c t IH]; [reflexivity|]. cbn [lstrip all_space].
  destruct (isspace c) eqn:E; [exact IH|].
  cbn [all_space]. now rewrite E.
Qed.

Lemma all_space_no_marker (s : string) :
  all_space s = true -> contains include_marker s = false.
Proof.
  induction s as [|c t IH]; [reflexivity|].
  cbn [all_space contains]. intros H. apply andb_prop in H as [Hc Ht].
  rewrite (IH Ht), orb_false_r. unfold include_marker. cbn [startswith].
  destruct (Ascii.eqb_spec "-"%char c) as [<-|]; [discriminate Hc|reflexivity].
Qed.

Lemma blank_no_marker (line : string) :
  (String.length (strip line) =? 0) = true ->
  contains include_marker line = false.
Proof.
  intros H. apply Nat.eqb_eq in H. apply all_space_no_marker, lstrip_empty.
  apply rstrip_empty. unfold strip in H.
  now destruct (rstrip (lstrip line)).
Qed.

Lemma reformat_line_no_marker (h line line' : string) (st st' : scan_state) :
  in_code_block st = false ->
  reformat_line h st line = Returned (line', st') ->
  contains include_marker line' = false /\ in_code_block st' = false.
Proof.
  intros Hc. unfold reformat_line.
  destruct (String.length (strip line) =? 0) eqn:Hb.
  { intros [= <- <-]. split; [now apply blank_no_marker|exact Hc]. }
  destruct (if in_tab_block st
            then if startswith line "    "
                 then (drop_chars 4 line, true) else (line, false)
            else (line, false)) as [l1 tab1].
  destruct (if startswith l1 "==="
            then match header_marker h with
                 | Returned h0 =>
                     Returned (replace q "" (replace "=== " h0 l1), true)
                 | Exited c => Exited c
                 | Raised e => Raised e
                 end
            else Returned (l1, tab1)) as [[l2 tab2]|c|e]; try discriminate.
  destruct (startswith l2 fence_py && negb (startswith l2 fence_python))
    eqn:Hf.
  - apply andb_true_iff in Hf as [Hf _].
    rewrite (fence_kept _ Hf). cbn [negb].
    destruct (contains include_marker (replace fence_py fence_python l2))
      eqn:Hm; intros [= <- <-]; split; auto.
  - rewrite Hc. cbn [negb].
    destruct (contains include_marker l2) eqn:Hm;
      intros [= <- <-]; split; auto.
Qed.

(** [in_code_block] is set and cleared in the same turn of the loop, so
    a line that holds the include marker is blanked wherever it stands,
    also between the fences of a code block: no line that the loop
    returns holds the marker. *)
Theorem reformat_output_no_include_marker (h : string)
    (lines out : list string) :
  reformat_lines h initial_state lines = Returned out ->
  Forall (fun line => contains include_marker line = false) out.
Proof.
  assert (G : forall st, in_code_block st = false ->
            forall out', reformat_lines h st lines = Returned out' ->
            Forall (fun line => contains include_marker line = false) out').
  { induction lines as [|l r IH]; intros st Hc out' H.
    - injection H as <-. constructor.
    - simpl in H.
      destruct (reformat_line h st l) as [[l' st']|c|e] eqn:Hl;
        try discriminate.
      destruct (reformat_lines h st' r) as [r'|c|e] eqn:Hr; try discriminate.
      injection H as <-.
      destruct (reformat_line_no_marker _ _ _ _ _ Hc Hl) as [Hm Hc'].
      constructor; [exact Hm|]. exact (IH st' Hc' r' Hr). }
  intros H. exact (G initial_state eq_refl out H).
Qed.

Lemma reformat_output_no_include_marker_witness :
  Forall (fun line => contains include_marker line = false)
    [ln "```python"; ""; ln "x = 1"; ln "```"].
Proof.
  apply (reformat_output_no_include_marker "h3"
           [ln "```python"; ln ("--8<-- " +:+ q +:+ "setup.py" +:+ q);
            ln "x = 1"; ln "```"]).
  reflexivity.
Defined.

(** ** The heading that replaces a tab line *)

Lemma startswith_barrier (p : string) (d : ascii) (b : string) :
  has_chr d p = false ->
  forall a, p <> "" -> startswith (a +:+ String d b) p = startswith a p.
Proof.
  induction p as [|x p IH]; intros Hd a Hp; [congruence|].
  simpl in Hd. apply orb_false_elim in Hd as [Hx Hd].
  destruct a as [|c a].
  - cbn [String.append startswith]. now rewrite Hx.
  - cbn [String.append startswith].
    destruct p as [|y p]; [reflexivity|].
    rewrite (IH Hd a) by discriminate. reflexivity.
Qed.

Lemma contains_barrier (p : string) (d : ascii) (a b : string) :
  has_chr d p = false -> p <> "" ->
  contains p (a +:+ String d b) = contains p a || contains p b.
Proof.
  intros Hd Hp. induction a as [|c a IH].
  - pose proof (startswith_barrier p d b Hd "" Hp) as E.
    cbn [String.append] in E. cbn [String.append contains]. rewrite E.
    destruct p; [congruence|]. reflexivity.
  - pose proof (startswith_barrier p d b Hd (String c a) Hp) as E.
    cbn [String.append] in E. cbn [String.append contains].
    rewrite E, IH. now rewrite orb_assoc.
Qed.

Lemma replace_from_none (old new s : string) :
  contains old s = false -> replace_from old new 0 s = s.
Proof.
  induction s as [|c t IH]; [reflexivity|].
  cbn [contains]. intros H. apply orb_false_elim in H as [Hs Ht].
  now rewrite (replace_from_cons _ _ _ _ Hs), (IH Ht).
Qed.

Lemma replace_from_skip (old new y s : string) :
  replace_from old new (String.length y) (y +:+ s) = replace_from old new 0 s.
Proof.
  induction y as [|c y IH]; [now destruct s|].
  cbn [String.length String.append replace_from]. exact IH.
Qed.

Lemma replace_from_prefix (old new s : string) :
  old <> "" ->
  replace_from old new 0 (old +:+ s) = new +:+ replace_from old new 0 s.
Proof.
  intros Hne. pose proof (startswith_refl_app old s) as E.
  destruct old as [|x old]; [congruence|].
  cbn [String.append] in E. cbn [String.append replace_from]. rewrite E.
  cbn [String.length]. rewrite Nat.sub_succ, Nat.sub_0_r.
  now rewrite replace_from_skip.
Qed.

Lemma contains_chr (d : ascii) (s : string) :
  contains (String d "") s = has_chr d s.
Proof.
  induction s as [|c t IH]; [reflexivity|].
  cbn [contains has_chr startswith]. rewrite IH, andb_true_r.
  now rewrite Ascii.eqb_sym.
Qed.

Lemma replace_quote (a b : string) :
  has_chr dquote a = false ->
  replace q "" (a +:+ q +:+ b) = a +:+ replace q "" b.
Proof.
  unfold replace, q. induction a as [|c a IH]; intros H.
  - exact (replace_from_prefix (String dquote "") "" b ltac:(discriminate)).
  - simpl in H. apply orb_false_elim in H as [Hc Ha].
    change (String c a +:+ String dquote "" +:+ b)
      with (String c (a +:+ String dquote "" +:+ b)).
    rewrite replace_from_cons, (IH Ha); [reflexivity|].
    cbn [startswith]. rewrite Ascii.eqb_sym in Hc. now rewrite Hc.
Qed.

Lemma replace_quote_none (a : string) :
  has_chr dquote a = false -> replace q "" a = a.
Proof.
  intros H. unfold replace, q. apply replace_from_none.
  now rewrite contains_chr.
Qed.

(** The two replacements on a tab line: the marker for the equal signs
    and the space, and the quotes dropped. *)
Lemma tabline_heading (m name : string) :
  m <> "" -> has_chr dquote m = false ->
  has_chr dquote name = false ->
  contains "=== " name = false ->
  replace q "" (replace "=== " m (tabline name)) = m +:+ name +:+ nl.
Proof.
  intros Hm Hq Hn Hc.
  assert (E : replace "=== " m (tabline name) = m +:+ q +:+ name +:+ q +:+ nl).
  { unfold replace, tabline, tab_open. rewrite !app_assoc_s.
    rewrite replace_from_prefix by discriminate. f_equal.
    apply replace_from_none. unfold q. cbn [String.append contains startswith].
    cbn [Ascii.eqb Bool.eqb andb orb].
    rewrite (contains_barrier "=== " dquote name nl eq_refl) by discriminate.
    now rewrite Hc. }
  rewrite E, (replace_quote m _ Hq), (replace_quote name _ Hn).
  now rewrite (replace_quote_none nl eq_refl).
Qed.

Lemma heading_no_marker (hashes name : string) :
  contains include_marker hashes = false ->
  contains include_marker name = false ->
  contains include_marker ((hashes +:+ " ") +:+ name +:+ nl) = false.
Proof.
  intros Hh Hn. rewrite app_assoc_s. cbn [String.append].
  rewrite (contains_barrier include_marker " " hashes _ eq_refl)
    by discriminate.
  rewrite Hh. cbn [orb]. unfold nl.
  rewrite (contains_barrier include_marker newline name "" eq_refl)
    by discriminate.
  now rewrite Hn.
Qed.

Lemma reformat_line_heading (h m name : string) (st : scan_state) :
  In h header_styles ->
  header_marker h = Returned m ->
  in_code_block st = false ->
  has_chr dquote name = false ->
  contains "=== " name = false ->
  contains include_marker name = false ->
  reformat_line h st (tabline name)
  = Returned (m +:+ name +:+ nl, ScanState false true).
Proof.
  intros Hh Hm Hc Hq He Hi.
  assert (T : tab_line (tabline name) = true) by reflexivity.
  assert (M : exists hashes, m = hashes +:+ " "
              /\ contains include_marker hashes = false
              /\ has_chr dquote m = false
              /\ startswith (m +:+ name +:+ nl) fence_py = false).
  { destruct Hh as [<-|[<-|[<-|[<-|[<-|[<-|[]]]]]]]; injection Hm as <-;
      [exists "##"|exists "###"|exists "####"
      |exists "##"|exists "###"|exists "####"];
      repeat split; reflexivity. }
  destruct M as (hashes & Em & Hh1 & Hh2 & Hh3).
  unfold reformat_line.
  rewrite (tab_line_not_blank _ T), (tab_line_not_indented _ T), Hm.
  unfold tab_line in T.
  assert (L : replace q "" (replace "=== " m (tabline name))
              = m +:+ name +:+ nl).
  { apply tabline_heading; try assumption. subst m. now destruct hashes. }
  destruct (in_tab_block st); cbv beta iota zeta; rewrite T;
    cbv beta iota zeta; rewrite L, Hh3, Hc; cbn [andb negb];
    subst m; rewrite (heading_no_marker hashes name Hh1 Hi); reflexivity.
Qed.

(** With a listed header style a tab line becomes a heading: the marker
    of the style, a space and the name without its quotes.  The name is
    any text without a double quote that does not hold the three equal
    signs and a space, or the include marker. *)
Theorem reformat_line_tab_heading (h m name : string) (st : scan_state) :
  In h header_styles ->
  header_marker h = Returned m ->
  in_code_block st = false ->
  has_chr dquote name = false ->
  contains "=== " name = false ->
  contains include_marker name = false ->
  reformat_line h st (tabline name)
  = Returned (m +:+ name +:+ nl, ScanState false true).
Proof. apply reformat_line_heading. Qed.

Lemma reformat_line_tab_heading_witness :
  reformat_line "h2" initial_state (tabline "PySpark (3.5)")
  = Returned (ln "## PySpark (3.5)", ScanState false true).
Proof.
  apply (reformat_line_tab_heading "h2" "## " "PySpark (3.5)" initial_state).
  - simpl. tauto.
  - reflexivity.
  - reflexivity.
  - reflexivity.
  - reflexivity.
  - reflexivity.
Defined.

(** ** Where a tab block ends *)

Lemma reformat_line_blank (h line : string) (st : scan_state) :
  blank_line line = true -> reformat_line h st line = Returned (line, st).
Proof. unfold blank_line, reformat_line. now intros ->. Qed.

Lemma reformat_line_closes (h line : string) :
  content_line line = true ->
  startswith line indent = false ->
  reformat_line h (ScanState false true) line = Returned (line, initial_state).
Proof.
  unfold content_line, blank_line, plain_line, reformat_line, indent.
  intros H Hi.
  apply andb_true_iff in H as [H0 H]. apply andb_true_iff in H as [H H3].
  apply andb_true_iff in H as [H1 H2].
  apply negb_true_iff in H0, H1, H2, H3.
  rewrite H0. cbn [in_tab_block in_code_block]. rewrite Hi.
  cbv beta iota zeta. rewrite H1. cbv beta iota zeta. rewrite H2.
  cbv beta iota zeta. cbn [negb]. rewrite H3. reflexivity.
Qed.

Lemma plain_indent (line : string) :
  plain_line line = true -> plain_line (indent +:+ line) = true.
Proof.
  unfold plain_line, indent. intros H.
  apply andb_true_iff in H as [_ H3].
  cbn [String.append contains startswith include_marker Ascii.eqb Bool.eqb
       andb orb negb fence_py fence_python].
  exact H3.
Qed.

(** A tab block runs from its tab line to the first line that is not
    blank and does not start with four spaces.  Up to there an indented
    line loses four spaces, also after a blank line, which is passed on
    as it is; from there on indented lines keep their indent. *)
Theorem reformat_tab_block_scope (h m name a blank b c d : string) :
  In h header_styles ->
  header_marker h = Returned m ->
  has_chr dquote name = false ->
  contains "=== " name = false ->
  contains include_marker name = false ->
  content_line a = true ->
  blank_line blank = true ->
  content_line b = true ->
  content_line c = true -> startswith c indent = false ->
  plain_line d = true ->
  reformat_lines h initial_state
    [tabline name; indent +:+ a; blank; indent +:+ b; c; indent +:+ d]
  = Returned [m +:+ name +:+ nl; a; blank; b; c; indent +:+ d].
Proof.
  intros Hh Hm Hq He Hi Ha Hblank Hb Hc Hci Hd.
  cbn [reformat_lines].
  rewrite (reformat_line_heading h m name initial_state Hh Hm eq_refl Hq He Hi).
  rewrite (reformat_line_body h a Ha).
  rewrite (reformat_line_blank h blank _ Hblank).
  rewrite (reformat_line_body h b Hb).
  rewrite (reformat_line_closes h c Hc Hci).
  rewrite (reformat_line_plain h _ (plain_indent d Hd)).
  reflexivity.
Qed.

Lemma reformat_tab_block_scope_witness :
  reformat_lines "h3" initial_state
    [tabline "SQL"; ln "    select 1"; nl; ln "    from t"; ln "Text.";
     ln "    quoted"]
  = Returned [ln "### SQL"; ln "select 1"; nl; ln "from t"; ln "Text.";
              ln "    quoted"].
Proof.
  apply (reformat_tab_block_scope "h3" "### " "SQL" (ln "select 1") nl
           (ln "from t") (ln "Text.") (ln "quoted")); try reflexivity.
  simpl. tauto.
Defined.

(** ** The short alias of a fence *)

Lemma contains_first_chr (x : ascii) (p s : string) :
  has_chr x s = false -> contains (String x p) s = false.
Proof.
  induction s as [|c t IH]; [reflexivity|].
  cbn [has_chr contains startswith]. intros H.
  apply orb_false_elim in H as [Hc Ht].
  rewrite Ascii.eqb_sym in Hc. now rewrite Hc, (IH Ht).
Qed.

(** A line that starts with the fence and [py], but not with the fence
    and [python], gets [python] for [py] whatever follows: a tag that
    only starts with [py] is rewritten as well ([pycon] becomes
    [pythoncon]).  The rest of the line, here without a backtick and
    without the include marker, is kept, and the line leaves the loop
    outside a code block and outside a tab block. *)
Theorem reformat_line_fence_alias (h rest : string) (st : scan_state) :
  startswith rest "thon" = false ->
  has_chr "`" rest = false ->
  contains include_marker rest = false ->
  reformat_line h st (fence_py +:+ rest)
  = Returned (fence_python +:+ rest, initial_state).
Proof.
  intros Ht Hb Hi.
  assert (R : replace fence_py fence_python (fence_py +:+ rest)
              = fence_python +:+ rest).
  { unfold replace, fence_py. rewrite replace_from_prefix by discriminate.
    f_equal. apply replace_from_none. now apply contains_first_chr. }
  assert (F : startswith (fence_py +:+ rest) fence_py = true)
    by apply startswith_refl_app.
  assert (P : startswith (fence_py +:+ rest) fence_python = false).
  { unfold fence_py, fence_python. cbn [String.append startswith].
    cbn [Ascii.eqb Bool.eqb andb]. exact Ht. }
  assert (K : startswith (strip (fence_python +:+ rest)) fence = true).
  { rewrite <- R. now apply fence_kept. }
  assert (M : contains include_marker (fence_python +:+ rest) = false).
  { unfold fence_python, include_marker.
    cbn [String.append contains startswith Ascii.eqb Bool.eqb andb orb].
    exact Hi. }
  assert (B : (String.length (strip (fence_py +:+ rest)) =? 0) = false).
  { unfold fence_py, strip. cbn [String.append lstrip].
    change (isspace "`") with false. cbv iota.
    rewrite rstrip_cons by reflexivity. reflexivity. }
  unfold reformat_line. rewrite B.
  assert (E : (if in_tab_block st
               then if startswith (fence_py +:+ rest) "    "
                    then (drop_chars 4 (fence_py +:+ rest), true)
                    else (fence_py +:+ rest, false)
               else (fence_py +:+ rest, false))
              = (fence_py +:+ rest, false)).
  { destruct (in_tab_block st); reflexivity. }
  rewrite E. cbv beta iota zeta.
  change (startswith (fence_py +:+ rest) "===") with false.
  cbv beta iota zeta. rewrite F, P. cbn [andb negb]. cbv beta iota zeta.
  rewrite R, K. cbn [negb]. now rewrite M.
Qed.

Lemma reformat_line_fence_alias_witness :
  reformat_line "h3" initial_state (ln "```pycon")
  = Returned (ln "```pythoncon", initial_state).
Proof.
  apply (reformat_line_fence_alias "h3" (ln "con") initial_state);
    reflexivity.
Defined.

(** ** The header style on the command line *)

(** With three arguments present, the entry point of the reformatting
    passes the third one on as the header style when it is not empty,
    and uses h3 when it is the empty text: the only way to the default
    style. *)
Theorem reformat_cli_header_style
    (subprocess_run : list string -> world -> completed)
    (prog file_path header : string) (rest : list string) (w : world) :
  let style := if String.eqb header "" then "h3" else header in
  reformat_file_cli subprocess_run (prog :: file_path :: header :: rest) w
  = (reformat_file subprocess_run file_path style;; mret ()) w
  /\ format_and_convert_cli subprocess_run
       (prog :: file_path :: header :: rest) w
     = format_and_convert subprocess_run file_path style w.
Proof.
  unfold reformat_file_cli, format_and_convert_cli, truthy.
  cbn [length Nat.ltb Nat.leb].
  unfold mbind at 1 6, M_bind at 1 6.
  cbn [lookup list_lookup or_raise mret M_ret].
  unfold mbind at 1 5, M_bind at 1 5.
  cbn [lookup list_lookup or_raise mret M_ret].
  destruct (String.eqb header ""); split; reflexivity.
Qed.

(** The match of a document with one section. *)
Lemma finditer_matches_witness :
  let content := ln "# Guide" +:+ tabline "sql" +:+ ln "    select 1" in
  let m := TabMatch "sql" (tabline "sql" +:+ ln "    select 1") in
  In m (finditer content)
  /\ tab_name m <> "" /\ has_chr dquote (tab_name m) = false
  /\ startswith (full_match m) (tab_open +:+ tab_name m +:+ q) = true
  /\ exists a b, content = a +:+ full_match m +:+ b.
Proof.
  intros content m.
  assert (H : In m (finditer content)) by (left; reflexivity).
  split; [exact H|].
  destruct (finditer_matches content) as [A _]. exact (A m H).
Defined.
